(** * WhatsApp session manager and webhook relay (server.js)

    A shallow embedding of the request handlers of [server.js]: the
    express-validator chains and the [validate] middleware, the client
    registry ([whatsappClients], [clientStates], [userWebhooks]), the
    [whatsapp_sessions] and [webhook_logs] tables, [sendToWebhook],
    [getWhatsAppClient] and the routes built on them.

    Conventions of the model.
    - JavaScript strings are [string]; the inputs considered are ASCII, so
      that [String.length] is the length [isLength] measures.
    - A [Client] object is represented by its identity, a number handed out
      by an allocation counter: two [new Client(...)] never yield the same
      object.
    - Calls into the outside world (the WhatsApp client, [fetch], the random
      generator, the clock) take their outcome as an argument and are
      recorded, in order, in the [trace] of the server state.
    - The store client settles with [{ data, error }] and does not reject
      (the handlers read [error] and [result.error]); a write whose result
      the code never reads is modelled as applied to the table.
    - A handler runs from request to response as one step, except
      [getWhatsAppClient], which is split at its [await] so that calls can
      be interleaved. *)

From Stdlib Require Import Ascii String.
From Stdlib.Strings Require Import Byte.
From stdpp Require Import base option list strings gmap pretty.

Local Open Scope string_scope.
Local Set Warnings "-register-all".

(** ** JavaScript string helpers *)

Module Js.

(** [\s] restricted to ASCII: TAB, LF, VT, FF, CR and SPACE. *)
Definition is_space (c : ascii) : bool :=
  let n := nat_of_ascii c in
  ((9 <=? n)%nat && (n <=? 13)%nat) || (n =? 32)%nat.

Definition is_digit (c : ascii) : bool :=
  let n := nat_of_ascii c in (48 <=? n)%nat && (n <=? 57)%nat.

Definition is_hex_digit (c : ascii) : bool :=
  let n := nat_of_ascii c in
  is_digit c || ((65 <=? n)%nat && (n <=? 70)%nat)
             || ((97 <=? n)%nat && (n <=? 102)%nat).

(** [str.replace(/^\s+/, '')] *)
Fixpoint ltrim (s : string) : string :=
  match s with
  | EmptyString => EmptyString
  | String c s' => if is_space c then ltrim s' else s
  end.

(** Strip the trailing whitespace. *)
Fixpoint rtrim (s : string) : string :=
  match s with
  | EmptyString => EmptyString
  | String c s' =>
      match rtrim s' with
      | EmptyString => if is_space c then EmptyString else String c EmptyString
      | t => String c t
      end
  end.

(** [String.prototype.includes] *)
Fixpoint includes (s sub : string) : bool :=
  String.prefix sub s ||
  match s with
  | EmptyString => false
  | String _ s' => includes s' sub
  end.

(** Truthiness of a string: every string but the empty one. *)
Definition truthy (s : string) : bool :=
  match s with EmptyString => false | _ => true end.

(** Truthiness of a possibly [undefined]/[null] string. *)
Definition truthy_opt (o : option string) : bool :=
  match o with Some s => truthy s | None => false end.

(** [x || null] on a possibly undefined string. *)
Definition or_null (o : option string) : option string :=
  match o with
  | Some s => if truthy s then Some s else None
  | None => None
  end.

(** ['a'.repeat(n)] *)
Fixpoint repeat (c : ascii) (n : nat) : string :=
  match n with
  | O => EmptyString
  | S n' => String c (repeat c n')
  end.

End Js.

(** ** Regular expressions

    The patterns of the validation chains are anchored at both ends
    ([^...$], no [m] flag), so [RegExp.prototype.test] is a match of the
    whole string; it is decided with Brzozowski derivatives. *)

Module Regex.

Inductive regex : Type :=
| Void
| Eps
| Class (p : ascii -> bool)
| Seq (r1 r2 : regex)
| Alt (r1 r2 : regex)
| Star (r : regex).

Fixpoint nullable (r : regex) : bool :=
  match r with
  | Void => false
  | Eps => true
  | Class _ => false
  | Seq r1 r2 => nullable r1 && nullable r2
  | Alt r1 r2 => nullable r1 || nullable r2
  | Star _ => true
  end.

Fixpoint deriv (c : ascii) (r : regex) : regex :=
  match r with
  | Void => Void
  | Eps => Void
  | Class p => if p c then Eps else Void
  | Seq r1 r2 =>
      if nullable r1
      then Alt (Seq (deriv c r1) r2) (deriv c r2)
      else Seq (deriv c r1) r2
  | Alt r1 r2 => Alt (deriv c r1) (deriv c r2)
  | Star r1 => Seq (deriv c r1) (Star r1)
  end.

Fixpoint test (r : regex) (s : string) : bool :=
  match s with
  | EmptyString => nullable r
  | String c s' => test (deriv c r) s'
  end.

Definition char (c : ascii) : regex := Class (Ascii.eqb c).
Definition plus (r : regex) : regex := Seq r (Star r).
Definition opt (r : regex) : regex := Alt r Eps.

Fixpoint lit (s : string) : regex :=
  match s with
  | EmptyString => Eps
  | String c s' => Seq (char c) (lit s')
  end.

(** [r{n}] *)
Fixpoint times (n : nat) (r : regex) : regex :=
  match n with
  | O => Eps
  | S n' => Seq r (times n' r)
  end.

(** The relational reading of a pattern, against which [test] is checked. *)
Inductive lang : regex -> string -> Prop :=
| L_eps : lang Eps EmptyString
| L_class p c : p c = true -> lang (Class p) (String c EmptyString)
| L_seq r1 r2 s1 s2 : lang r1 s1 -> lang r2 s2 -> lang (Seq r1 r2) (s1 ++ s2)
| L_alt_l r1 r2 s : lang r1 s -> lang (Alt r1 r2) s
| L_alt_r r1 r2 s : lang r2 s -> lang (Alt r1 r2) s
| L_star_nil r : lang (Star r) EmptyString
| L_star_cons r s1 s2 : lang r s1 -> lang (Star r) s2 -> lang (Star r) (s1 ++ s2).

End Regex.

(** ** JSON values and [JSON.stringify] *)

Module Json.

Inductive Json : Type :=
| JNull
| JBool (b : bool)
| JNum (n : Z)
| JStr (s : string)
| JArr (items : list Json)
| JObj (fields : list (string * Json)).

Definition dquote : ascii := ascii_of_nat 34.
Definition backslash : ascii := ascii_of_nat 92.

Definition hex_digit (n : nat) : ascii :=
  if (n <? 10)%nat then ascii_of_nat (48 + n) else ascii_of_nat (87 + n).

(** The escape of one character inside a JSON string literal. *)
Definition escape_char (c : ascii) : string :=
  let n := nat_of_ascii c in
  if (n =? 34)%nat then String backslash (String dquote EmptyString)
  else if (n =? 92)%nat then String backslash (String backslash EmptyString)
  else if (n =? 8)%nat then String backslash "b"
  else if (n =? 9)%nat then String backslash "t"
  else if (n =? 10)%nat then String backslash "n"
  else if (n =? 12)%nat then String backslash "f"
  else if (n =? 13)%nat then String backslash "r"
  else if (n <? 32)%nat then
    String backslash
      (String "u" (String "0" (String "0"
         (String (hex_digit (n / 16)) (String (hex_digit (n mod 16)) EmptyString)))))
  else String c EmptyString.

Fixpoint escape (s : string) : string :=
  match s with
  | EmptyString => EmptyString
  | String c s' => escape_char c ++ escape s'
  end.

Definition quote (s : string) : string :=
  String dquote (escape s ++ String dquote EmptyString).

Fixpoint join (sep : string) (l : list string) : string :=
  match l with
  | [] => EmptyString
  | [x] => x
  | x :: l' => x ++ sep ++ join sep l'
  end.

Fixpoint stringify (j : Json) : string :=
  match j with
  | JNull => "null"
  | JBool true => "true"
  | JBool false => "false"
  | JNum n => pretty n
  | JStr s => quote s
  | JArr items => "[" ++ join "," (List.map stringify items) ++ "]"
  | JObj fields =>
      "{" ++ join "," (List.map (fun kv => quote (fst kv) ++ ":" ++ stringify (snd kv)) fields)
          ++ "}"
  end.

(** [obj[key]], [None] standing for [undefined]. *)
Fixpoint assoc (key : string) (fields : list (string * Json)) : option Json :=
  match fields with
  | [] => None
  | (k, v) :: rest => if String.eqb k key then Some v else assoc key rest
  end.

Definition get (key : string) (j : Json) : option Json :=
  match j with
  | JObj fields => assoc key fields
  | _ => None
  end.

(** [x || null] of a nullable string column, as a JSON value. *)
Definition of_opt_string (o : option string) : Json :=
  match Js.or_null o with Some s => JStr s | None => JNull end.

End Json.
Export Json(Json, JNull, JBool, JNum, JStr, JArr, JObj).

(** ** express-validator chains and the [validate] middleware *)

Module Validator.

Definition trim (s : string) : string := Js.rtrim (Js.ltrim s).

(** [/^[\d\-]+@[cg]\.us$/] *)
Definition chatId_re : Regex.regex :=
  Regex.Seq (Regex.plus (Regex.Class (fun c => Js.is_digit c || Ascii.eqb c "-")))
    (Regex.Seq (Regex.char "@")
       (Regex.Seq (Regex.Class (fun c => Ascii.eqb c "c" || Ascii.eqb c "g"))
          (Regex.lit ".us"))).

(** [/^[\d\-]+(@[cg]\.us)?$/] *)
Definition phone_re : Regex.regex :=
  Regex.Seq (Regex.plus (Regex.Class (fun c => Js.is_digit c || Ascii.eqb c "-")))
    (Regex.opt
       (Regex.Seq (Regex.char "@")
          (Regex.Seq (Regex.Class (fun c => Ascii.eqb c "c" || Ascii.eqb c "g"))
             (Regex.lit ".us")))).

(** [isUUID()] without a version:
    [/^[0-9A-F]{8}-[0-9A-F]{4}-[0-9A-F]{4}-[0-9A-F]{4}-[0-9A-F]{12}$/i] *)
Definition uuid_re : Regex.regex :=
  let h := Regex.Class Js.is_hex_digit in
  let dash := Regex.char "-" in
  Regex.Seq (Regex.times 8 h) (Regex.Seq dash
    (Regex.Seq (Regex.times 4 h) (Regex.Seq dash
      (Regex.Seq (Regex.times 4 h) (Regex.Seq dash
        (Regex.Seq (Regex.times 4 h) (Regex.Seq dash (Regex.times 12 h)))))))).

(** One link of a chain: a sanitizer, or a validator with its
    [withMessage]. *)
Inductive step : Type :=
| Trim
| NotEmpty (msg : string)
| Matches (r : Regex.regex) (msg : string)
| IsLengthMax (max : nat) (msg : string)
| Custom (p : string -> bool) (msg : string).

Record chain : Type := Chain {
  path : string;
  optional : bool;
  steps : list step
}.

Record error : Type := Error { err_path : string; err_msg : string }.

(** The links run in order on the current value; a sanitizer replaces
    it, a failing validator records its message and the chain goes on. *)
Fixpoint run_steps (p : string) (l : list step) (v : string) : string * list error :=
  match l with
  | [] => (v, [])
  | Trim :: l' => run_steps p l' (trim v)
  | NotEmpty msg :: l' =>
      let '(v', es) := run_steps p l' v in
      (v', if Js.truthy v then es else Error p msg :: es)
  | Matches r msg :: l' =>
      let '(v', es) := run_steps p l' v in
      (v', if Regex.test r v then es else Error p msg :: es)
  | IsLengthMax max msg :: l' =>
      let '(v', es) := run_steps p l' v in
      (v', if (String.length v <=? max)%nat then es else Error p msg :: es)
  | Custom f msg :: l' =>
      let '(v', es) := run_steps p l' v in
      (v', if f v then es else Error p msg :: es)
  end.

(** A field that is [undefined] is validated as the empty string, and is
    skipped altogether by an [optional()] chain. *)
Definition run_chain (c : chain) (field : option string) : option string * list error :=
  match field with
  | None =>
      if optional c then (None, [])
      else let '(v, es) := run_steps (path c) (steps c) EmptyString in (Some v, es)
  | Some v0 =>
      let '(v, es) := run_steps (path c) (steps c) v0 in (Some v, es)
  end.

(** An entry of [errors.array()], reduced to its message and field. *)
Definition error_json (e : error) : Json :=
  JObj [("msg", JStr (err_msg e)); ("path", JStr (err_path e))].

End Validator.

(** ** Server state *)

(** [clientStates] entry: [{ qr, ready, chats }]. *)
Record ClientState : Type := {
  qr : string;
  ready : bool;
  chats : list Json
}.

(** A row of [whatsapp_sessions], keyed by [user_id]; every column the
    code writes, each nullable. *)
Record SessionRow : Type := {
  webhook_url : option string;
  webhook_enabled : option bool;
  webhook_secret : option string;
  is_connected : option bool;
  created_at : option string;
  updated_at : option string
}.

(** A row of [webhook_logs]. *)
Record LogEntry : Type := {
  log_user_id : string;
  log_direction : string;
  log_status : string;
  log_payload : Json;
  log_response : option Json
}.

(** The second argument of [fetch]. [init_signal] is the abort signal of
    the call ([AbortSignal.timeout(ms)]), [None] when the object literal
    has no [signal] key. *)
Record RequestInit : Type := {
  init_method : string;
  init_headers : list (string * string);
  init_body : string;
  init_signal : option N
}.

(** Calls into the outside world, in the order they are made. *)
Inductive Effect : Type :=
| NewClient (client : nat) (clientId : string)
| ClientInitialize (client : nat)
| ClientLogout (client : nat)
| ClientDestroy (client : nat)
| ClientSendMessage (client : nat) (chatId message : string)
| Fetch (url : string) (init : RequestInit).

(** A pending [setTimeout] whose callback destroys [timer_client]. *)
Record Timer : Type := {
  timer_client : nat;
  timer_delay : nat
}.

Record Server : Type := {
  whatsappClients : gmap string nat;
  clientStates : gmap string ClientState;
  userWebhooks : gmap string string;
  whatsapp_sessions : gmap string SessionRow;
  webhook_logs : list LogEntry;
  timers : list Timer;
  next_client : nat;
  trace : list Effect
}.

Definition empty_server : Server := {|
  whatsappClients := ∅;
  clientStates := ∅;
  userWebhooks := ∅;
  whatsapp_sessions := ∅;
  webhook_logs := [];
  timers := [];
  next_client := 0;
  trace := []
|}.

Definition set_whatsappClients (f : gmap string nat -> gmap string nat) (st : Server) : Server :=
  {| whatsappClients := f (whatsappClients st); clientStates := clientStates st;
     userWebhooks := userWebhooks st; whatsapp_sessions := whatsapp_sessions st;
     webhook_logs := webhook_logs st; timers := timers st;
     next_client := next_client st; trace := trace st |}.

Definition set_clientStates (f : gmap string ClientState -> gmap string ClientState)
    (st : Server) : Server :=
  {| whatsappClients := whatsappClients st; clientStates := f (clientStates st);
     userWebhooks := userWebhooks st; whatsapp_sessions := whatsapp_sessions st;
     webhook_logs := webhook_logs st; timers := timers st;
     next_client := next_client st; trace := trace st |}.

Definition set_userWebhooks (f : gmap string string -> gmap string string) (st : Server) : Server :=
  {| whatsappClients := whatsappClients st; clientStates := clientStates st;
     userWebhooks := f (userWebhooks st); whatsapp_sessions := whatsapp_sessions st;
     webhook_logs := webhook_logs st; timers := timers st;
     next_client := next_client st; trace := trace st |}.

Definition set_whatsapp_sessions (f : gmap string SessionRow -> gmap string SessionRow)
    (st : Server) : Server :=
  {| whatsappClients := whatsappClients st; clientStates := clientStates st;
     userWebhooks := userWebhooks st; whatsapp_sessions := f (whatsapp_sessions st);
     webhook_logs := webhook_logs st; timers := timers st;
     next_client := next_client st; trace := trace st |}.

Definition set_webhook_logs (f : list LogEntry -> list LogEntry) (st : Server) : Server :=
  {| whatsappClients := whatsappClients st; clientStates := clientStates st;
     userWebhooks := userWebhooks st; whatsapp_sessions := whatsapp_sessions st;
     webhook_logs := f (webhook_logs st); timers := timers st;
     next_client := next_client st; trace := trace st |}.

Definition set_timers (f : list Timer -> list Timer) (st : Server) : Server :=
  {| whatsappClients := whatsappClients st; clientStates := clientStates st;
     userWebhooks := userWebhooks st; whatsapp_sessions := whatsapp_sessions st;
     webhook_logs := webhook_logs st; timers := f (timers st);
     next_client := next_client st; trace := trace st |}.

Definition set_next_client (f : nat -> nat) (st : Server) : Server :=
  {| whatsappClients := whatsappClients st; clientStates := clientStates st;
     userWebhooks := userWebhooks st; whatsapp_sessions := whatsapp_sessions st;
     webhook_logs := webhook_logs st; timers := timers st;
     next_client := f (next_client st); trace := trace st |}.

Definition set_trace (f : list Effect -> list Effect) (st : Server) : Server :=
  {| whatsappClients := whatsappClients st; clientStates := clientStates st;
     userWebhooks := userWebhooks st; whatsapp_sessions := whatsapp_sessions st;
     webhook_logs := webhook_logs st; timers := timers st;
     next_client := next_client st; trace := f (trace st) |}.

(** ** The handler monad: state plus exceptions

    A computation runs on the server state and either returns or throws
    an [Error] (its [message]); the state reached is kept in both cases,
    as a JavaScript [try]/[catch] keeps the effects of the failed block. *)

Inductive Result (A : Type) : Type :=
| Ok (a : A)
| Throw (message : string).
Arguments Ok {A} a.
Arguments Throw {A} message.

Definition M (A : Type) : Type := Server -> Result A * Server.

#[global] Instance M_ret : MRet M := fun A a st => (Ok a, st).

#[global] Instance M_bind : MBind M := fun A B f m st =>
  match m st with
  | (Ok a, st') => f a st'
  | (Throw e, st') => (Throw e, st')
  end.

Definition throw {A : Type} (e : string) : M A := fun st => (Throw e, st).

(** [try { body } catch (error) { handler }] *)
Definition try_catch {A : Type} (body : M A) (handler : string -> M A) : M A :=
  fun st =>
    match body st with
    | (Ok a, st') => (Ok a, st')
    | (Throw e, st') => handler e st'
    end.

Definition gets {A : Type} (f : Server -> A) : M A := fun st => (Ok (f st), st).
Definition modify (f : Server -> Server) : M unit := fun st => (Ok tt, f st).
Definition emit (e : Effect) : M unit := modify (set_trace (fun t => (t ++ [e])%list)).

(** An awaited call that settles with [outcome]: [None] resolves,
    [Some message] rejects. *)
Definition settle (outcome : option string) : M unit :=
  match outcome with
  | None => mret tt
  | Some e => throw e
  end.

(** ** Responses *)

Record Response : Type := {
  status : nat;
  body : Json
}.

(** [res.json(b)] *)
Definition json (b : Json) : Response := {| status := 200; body := b |}.

(** [res.status(code).json(b)] *)
Definition status_json (code : nat) (b : Json) : Response := {| status := code; body := b |}.

(** The [validate] middleware: 400 with the violations when a chain
    recorded one, the next handler otherwise. *)
Definition validate (errors : list Validator.error) (next : M Response) : M Response :=
  match errors with
  | [] => next
  | _ =>
      mret (status_json 400
              (JObj [("error", JStr "Validation failed");
                     ("details", JArr (List.map Validator.error_json errors))]))
  end.

(** ** The outside world *)

(** [new Client({ authStrategy: new LocalAuth({ clientId }), ... })] *)
Definition new_Client (clientId : string) : M nat :=
  c ← gets next_client;
  modify (set_next_client S);;
  emit (NewClient c clientId);;
  mret c.

(** [client.initialize()], not awaited. *)
Definition client_initialize (client : nat) : M unit := emit (ClientInitialize client).

(** [await client.logout()] *)
Definition client_logout (client : nat) (outcome : option string) : M unit :=
  emit (ClientLogout client);; settle outcome.

(** [await client.destroy()] *)
Definition client_destroy (client : nat) (outcome : option string) : M unit :=
  emit (ClientDestroy client);; settle outcome.

(** [await client.sendMessage(chatId, message)] *)
Definition client_sendMessage (client : nat) (chatId message : string)
    (outcome : option string) : M unit :=
  emit (ClientSendMessage client chatId message);; settle outcome.

(** How a [fetch] settles: with a response of some status, or with an
    error. *)
Inductive FetchOutcome : Type :=
| Resolved (response_status : nat)
| Rejected (message : string).

(** [await fetch(url, init)], giving [response.status]. *)
Definition fetch (url : string) (init : RequestInit) (outcome : FetchOutcome) : M nat :=
  emit (Fetch url init);;
  match outcome with
  | Resolved s => mret s
  | Rejected e => throw e
  end.

(** [crypto.randomBytes(n)] drawn from the generator [rng]. *)
Definition randomBytes (rng : nat -> byte) (n : nat) : list byte :=
  List.map rng (seq 0 n).

(** [buffer.toString('hex')] *)
Fixpoint toString_hex (buffer : list byte) : string :=
  match buffer with
  | [] => EmptyString
  | b :: rest =>
      let n := Byte.to_nat b in
      String (Json.hex_digit (n / 16)) (String (Json.hex_digit (n mod 16)) (toString_hex rest))
  end.

(** [supabase.from('webhook_logs').insert(entry)] *)
Definition insert_log (entry : LogEntry) : M unit :=
  modify (set_webhook_logs (fun logs => (logs ++ [entry])%list)).

(** [setTimeout(async () => { try { await client.destroy() } catch {} }, ms)] *)
Definition setTimeout_destroy (client : nat) (ms : nat) : M unit :=
  modify (set_timers (fun ts => (ts ++ [{| timer_client := client; timer_delay := ms |}])%list)).

(** The callback of that timer: destruction with its failure swallowed. *)
Definition destroy_callback (client : nat) (destroy_outcome : option string) : M unit :=
  try_catch (client_destroy client destroy_outcome) (fun _ => mret tt).

(** The event loop fires the oldest pending timer. *)
Definition fire_timer (destroy_outcome : option string) : M unit :=
  ts ← gets timers;
  match ts with
  | [] => mret tt
  | t :: rest =>
      modify (set_timers (fun _ => rest));;
      destroy_callback (timer_client t) destroy_outcome
  end.

(** ** [sendToWebhook] *)

Definition sendToWebhook (userId : string) (webhookData : Json) (outcome : FetchOutcome)
    : M unit :=
  webhookUrl ← gets (fun st => userWebhooks st !! userId);
  if negb (Js.truthy_opt webhookUrl) then mret tt
  else
    try_catch
      (response_status ←
         fetch (default EmptyString webhookUrl)
           {| init_method := "POST";
              init_headers := [("Content-Type", "application/json")];
              init_body := Json.stringify webhookData;
              init_signal := None |}
           outcome;
       insert_log {| log_user_id := userId;
                     log_direction := "incoming";
                     log_status := pretty response_status;
                     log_payload := webhookData;
                     log_response := Some (JObj [("status", JNum (Z.of_nat response_status))]) |})
      (fun error =>
         insert_log {| log_user_id := userId;
                       log_direction := "incoming";
                       log_status := "failed";
                       log_payload := webhookData;
                       log_response := Some (JObj [("error", JStr error)]) |}).

(** ** [getWhatsAppClient]

    The function has one suspension point, the [await] of the
    [whatsapp_sessions] query. [getWhatsAppClient_enter] is the part that
    runs up to it, [getWhatsAppClient_resume] the continuation; other
    requests may run in between. *)

Definition fresh_state : ClientState := {| qr := EmptyString; ready := false; chats := [] |}.

Definition getWhatsAppClient_enter (userId : string) : M (nat + nat) :=
  existing ← gets (fun st => whatsappClients st !! userId);
  match existing with
  | Some client => mret (inl client)
  | None =>
      client ← new_Client userId;
      modify (set_clientStates <[userId := fresh_state]>);;
      mret (inr client)
  end.

(** [session && session.webhook_enabled && session.webhook_url] *)
Definition stored_webhook (session : option SessionRow) : option string :=
  match session with
  | Some row =>
      match webhook_enabled row, Js.or_null (webhook_url row) with
      | Some true, Some url => Some url
      | _, _ => None
      end
  | None => None
  end.

(** The [client.on(...)] registrations that precede [client.initialize()]
    attach callbacks only; they have no effect of their own at this point. *)
Definition getWhatsAppClient_resume (userId : string) (client : nat) : M nat :=
  session ← gets (fun st => whatsapp_sessions st !! userId);
  match stored_webhook session with
  | Some url => modify (set_userWebhooks <[userId := url]>)
  | None => mret tt
  end;;
  client_initialize client;;
  modify (set_whatsappClients <[userId := client]>);;
  mret client.

(** A call that nothing interleaves with. *)
Definition getWhatsAppClient (userId : string) : M nat :=
  r ← getWhatsAppClient_enter userId;
  match r with
  | inl client => mret client
  | inr client => getWhatsAppClient_resume userId client
  end.

(** Requests for [getWhatsAppClient] in flight: each is either not yet
    started, suspended at the [await] with the client it has built, or
    returned. A schedule names, step after step, the call the event loop
    runs next. *)
Inductive Call : Type :=
| Arrived (userId : string)
| Suspended (userId : string) (client : nat)
| Returned (client : nat).

Definition advance (c : Call) : M Call :=
  match c with
  | Arrived userId =>
      r ← getWhatsAppClient_enter userId;
      match r with
      | inl client => mret (Returned client)
      | inr client => mret (Suspended userId client)
      end
  | Suspended userId client =>
      client' ← getWhatsAppClient_resume userId client;
      mret (Returned client')
  | Returned client => mret (Returned client)
  end.

Fixpoint run_schedule (schedule : list nat) (calls : list Call) : M (list Call) :=
  match schedule with
  | [] => mret calls
  | i :: rest =>
      match calls !! i with
      | Some c => c' ← advance c; run_schedule rest (<[i := c']> calls)
      | None => run_schedule rest calls
      end
  end.

(** The clients the trace shows as constructed, and as started. *)
Definition constructed (t : list Effect) : list nat :=
  omap (fun e => match e with NewClient c _ => Some c | _ => None end) t.

Definition initialized (t : list Effect) : list nat :=
  omap (fun e => match e with ClientInitialize c => Some c | _ => None end) t.

(** The [sendMessage] calls of a trace. *)
Definition dispatches (t : list Effect) : list (nat * string * string) :=
  omap (fun e => match e with
                 | ClientSendMessage c chatId message => Some (c, chatId, message)
                 | _ => None
                 end) t.

(** The [fetch] calls of a trace. *)
Definition fetches (t : list Effect) : list (string * RequestInit) :=
  omap (fun e => match e with Fetch url init => Some (url, init) | _ => None end) t.

(** ** Authenticated routes

    [authenticateUser] and the rate limiters run before the handlers
    below; a route takes the [req.user.id] the former has established. *)

(** [GET /qr] *)
Definition get_qr (userId : string) : M Response :=
  _ ← getWhatsAppClient userId;
  state ← gets (fun st => clientStates st !! userId);
  let state := default fresh_state state in
  mret (json (JObj [("qr", JStr (qr state)); ("ready", JBool (ready state))])).

(** [POST /send-message] *)

(** The body of the request: each field is absent or a string. *)
Record SendMessageBody : Type := {
  sm_chatId : option string;
  sm_message : option string
}.

Definition chatId_chain : Validator.chain :=
  Validator.Chain "chatId" false
    [Validator.Trim;
     Validator.NotEmpty "Chat ID is required";
     Validator.Matches Validator.chatId_re "Invalid chat ID format"].

Definition message_chain : Validator.chain :=
  Validator.Chain "message" false
    [Validator.Trim;
     Validator.NotEmpty "Message cannot be empty";
     Validator.IsLengthMax 4096 "Message too long (max 4096 chars)"].

Definition send_message_handler (userId : string) (chatId message : option string)
    (send_outcome : option string) : M Response :=
  try_catch
    (if negb (Js.truthy_opt chatId) || negb (Js.truthy_opt message) then
       mret (status_json 400 (JObj [("error", JStr "chatId and message are required")]))
     else
       client ← gets (fun st => whatsappClients st !! userId);
       match client with
       | None => mret (status_json 503 (JObj [("error", JStr "WhatsApp not connected")]))
       | Some c =>
           client_sendMessage c (default EmptyString chatId) (default EmptyString message)
             send_outcome;;
           mret (json (JObj [("success", JBool true);
                             ("message", JStr "Message sent successfully")]))
       end)
    (fun error =>
       mret (status_json 500 (JObj [("error", JStr "Failed to send message");
                                    ("details", JStr error)]))).

Definition post_send_message (userId : string) (req : SendMessageBody)
    (send_outcome : option string) : M Response :=
  let '(chatId, e1) := Validator.run_chain chatId_chain (sm_chatId req) in
  let '(message, e2) := Validator.run_chain message_chain (sm_message req) in
  validate (e1 ++ e2)%list (send_message_handler userId chatId message send_outcome).

(** [POST /logout-whatsapp] *)

Definition mark_disconnected (now : string) (row : SessionRow) : SessionRow :=
  {| webhook_url := webhook_url row;
     webhook_enabled := webhook_enabled row;
     webhook_secret := webhook_secret row;
     is_connected := Some false;
     created_at := created_at row;
     updated_at := Some now |}.

Definition post_logout_whatsapp (userId : string) (logout_outcome : option string)
    (now : string) : M Response :=
  try_catch
    (client ← gets (fun st => whatsappClients st !! userId);
     match client with
     | Some c =>
         try_catch (client_logout c logout_outcome) (fun _ => mret tt);;
         modify (set_whatsappClients (delete userId));;
         modify (set_clientStates (delete userId));;
         modify (set_userWebhooks (delete userId));;
         modify (set_whatsapp_sessions (alter (mark_disconnected now) userId));;
         setTimeout_destroy c 2000
     | None => mret tt
     end;;
     mret (json (JObj [("success", JBool true);
                       ("message",
                        JStr "WhatsApp disconnected. You will need to scan QR code again.")])))
    (fun error =>
       mret (json (JObj [("success", JBool true);
                         ("message", JStr "Disconnected (with warnings)");
                         ("warning", JStr error)]))).

(** ** Webhook management routes *)

(** [GET /webhook/config]. [db_error] is the [error] of the query, if
    any. *)
Definition get_webhook_config (userId protocol host : string) (db_error : option string)
    : M Response :=
  try_catch
    (session ← gets (fun st => if db_error is Some _ then None
                               else whatsapp_sessions st !! userId);
     match db_error with
     | Some e => throw e
     | None =>
         let baseUrl := protocol ++ "://" ++ host in
         mret (json (JObj
           [("success", JBool true);
            ("webhook_url", Json.of_opt_string (session ≫= webhook_url));
            ("webhook_enabled", JBool (default false (session ≫= webhook_enabled)));
            ("webhook_secret", Json.of_opt_string (session ≫= webhook_secret));
            ("outgoing_webhook_url", JStr (baseUrl ++ "/webhook/send/" ++ userId))]))
     end)
    (fun error =>
       mret (status_json 500 (JObj [("error", JStr "Failed to get webhook config");
                                    ("details", JStr error)]))).

(** [POST /webhook/config] *)

(** The body of the request; [webhook_enabled], when present, is a JSON
    boolean. *)
Record WebhookConfigBody : Type := {
  wc_webhook_url : option string;
  wc_webhook_enabled : option bool
}.

(** [isURL] is the URL test of the validation library. *)
Definition webhook_url_chain (isURL : string -> bool) : Validator.chain :=
  Validator.Chain "webhook_url" true
    [Validator.Trim; Validator.Custom isURL "Invalid webhook URL"].

(** [isBoolean()] on the textual form of the field. *)
Definition isBoolean (s : string) : bool :=
  String.eqb s "true" || String.eqb s "false" || String.eqb s "1" || String.eqb s "0".

Definition webhook_enabled_chain : Validator.chain :=
  Validator.Chain "webhook_enabled" true
    [Validator.Custom isBoolean "webhook_enabled must be boolean"].

Definition bool_toString (b : bool) : string := if b then "true" else "false".

(** The columns written by the update of an existing row. *)
Definition configured (url : option string) (enabled : bool) (secret now : string)
    (row : SessionRow) : SessionRow :=
  {| webhook_url := Js.or_null url;
     webhook_enabled := Some enabled;
     webhook_secret := Some secret;
     is_connected := is_connected row;
     created_at := created_at row;
     updated_at := Some now |}.

(** The row inserted when the user has none. *)
Definition inserted (url : option string) (enabled : bool) (secret now : string) : SessionRow :=
  {| webhook_url := Js.or_null url;
     webhook_enabled := Some enabled;
     webhook_secret := Some secret;
     is_connected := Some false;
     created_at := Some now;
     updated_at := Some now |}.

(** A write to [whatsapp_sessions] whose [result.error] is [db_error]: the
    table changes only when there is none. *)
Definition write_sessions (db_error : option string)
    (f : gmap string SessionRow -> gmap string SessionRow) : M (option string) :=
  match db_error with
  | Some e => mret (Some e)
  | None => modify (set_whatsapp_sessions f);; mret None
  end.

Definition webhook_config_handler (userId : string) (webhook_url : option string)
    (webhook_enabled : option bool) (rng : nat -> byte) (now : string)
    (db_error : option string) : M Response :=
  try_catch
    (let secret := toString_hex (randomBytes rng 32) in
     let enabled := default false webhook_enabled in
     existingSession ← gets (fun st => whatsapp_sessions st !! userId);
     result_error ←
       match existingSession with
       | Some _ => write_sessions db_error (alter (configured webhook_url enabled secret now) userId)
       | None => write_sessions db_error <[userId := inserted webhook_url enabled secret now]>
       end;
     match result_error with
     | Some e => throw e
     | None =>
         (if enabled && Js.truthy_opt webhook_url
          then modify (set_userWebhooks <[userId := default EmptyString webhook_url]>)
          else modify (set_userWebhooks (delete userId)));;
         let response :=
           [("success", JBool true); ("message", JStr "Webhook configured successfully")] in
         let response :=
           if enabled && Js.truthy_opt webhook_url
           then (response ++
                 [("webhook_secret", JStr secret);
                  ("note", JStr "⚠️ Save this secret! You will not see it again.")])%list
           else response in
         mret (json (JObj response))
     end)
    (fun error =>
       mret (status_json 500 (JObj [("error", JStr "Failed to configure webhook");
                                    ("details", JStr error)]))).

Definition post_webhook_config (isURL : string -> bool) (userId : string)
    (req : WebhookConfigBody) (rng : nat -> byte) (now : string) (db_error : option string)
    : M Response :=
  let '(url, e1) := Validator.run_chain (webhook_url_chain isURL) (wc_webhook_url req) in
  let '(_, e2) :=
    Validator.run_chain webhook_enabled_chain (bool_toString <$> wc_webhook_enabled req) in
  validate (e1 ++ e2)%list
    (webhook_config_handler userId url (wc_webhook_enabled req) rng now db_error).

(** [POST /webhook/test] *)
Definition post_webhook_test (userId now : string) (outcome : FetchOutcome) : M Response :=
  try_catch
    (let testData :=
       JObj [("event", JStr "test");
             ("timestamp", JStr now);
             ("message", JStr "This is a test webhook from WhatsApp Manager");
             ("user_id", JStr userId)] in
     sendToWebhook userId testData outcome;;
     mret (json (JObj [("success", JBool true); ("message", JStr "Test webhook sent")])))
    (fun _ => mret (status_json 500 (JObj [("error", JStr "Failed to send test webhook")]))).

(** ** The public send endpoint, [POST /webhook/send/:userId] *)

(** The body of the request: each field is absent or a string. *)
Record WebhookSendBody : Type := {
  ws_to : option string;
  ws_message : option string;
  ws_secret : option string
}.

Definition userId_chain : Validator.chain :=
  Validator.Chain "userId" false
    [Validator.Custom (Regex.test Validator.uuid_re) "Invalid user ID"].

Definition to_chain : Validator.chain :=
  Validator.Chain "to" false
    [Validator.Trim;
     Validator.NotEmpty "Recipient is required";
     Validator.Matches Validator.phone_re "Invalid phone number format"].

Definition secret_chain : Validator.chain :=
  Validator.Chain "secret" false [Validator.NotEmpty "Secret is required"].

(** [to.includes('@') ? to : `${to}@c.us`] *)
Definition format_chatId (to : string) : string :=
  if Js.includes to "@" then to else to ++ "@c.us".

Definition webhook_send_handler (userId : string) (to message secret : option string)
    (send_outcome : option string) : M Response :=
  try_catch
    (session ← gets (fun st => whatsapp_sessions st !! userId);
     match session with
     | None =>
         mret (status_json 403 (JObj [("success", JBool false);
                                      ("error", JStr "Webhook not enabled for this user")]))
     | Some row =>
         if negb (default false (webhook_enabled row)) then
           mret (status_json 403 (JObj [("success", JBool false);
                                        ("error", JStr "Webhook not enabled for this user")]))
         else if negb (bool_decide (secret = webhook_secret row)) then
           mret (status_json 401 (JObj [("success", JBool false);
                                        ("error", JStr "Invalid webhook secret")]))
         else if negb (Js.truthy_opt to) || negb (Js.truthy_opt message) then
           mret (status_json 400 (JObj [("success", JBool false);
                                        ("error", JStr "Required fields: to, message, secret")]))
         else
           client ← gets (fun st => whatsappClients st !! userId);
           match client with
           | None =>
               mret (status_json 503
                       (JObj [("success", JBool false);
                              ("error", JStr "WhatsApp not connected for this user")]))
           | Some c =>
               let to := default EmptyString to in
               let message := default EmptyString message in
               let chatId := format_chatId to in
               client_sendMessage c chatId message send_outcome;;
               insert_log {| log_user_id := userId;
                             log_direction := "outgoing";
                             log_status := "success";
                             log_payload := JObj [("to", JStr to); ("message", JStr message)];
                             log_response := None |};;
               mret (json (JObj [("success", JBool true);
                                 ("message", JStr "Message sent successfully");
                                 ("to", JStr chatId)]))
           end
     end)
    (fun error =>
       mret (status_json 500 (JObj [("success", JBool false); ("error", JStr error)]))).

Definition post_webhook_send (userId : string) (req : WebhookSendBody)
    (send_outcome : option string) : M Response :=
  let '(_, e0) := Validator.run_chain userId_chain (Some userId) in
  let '(to, e1) := Validator.run_chain to_chain (ws_to req) in
  let '(message, e2) := Validator.run_chain message_chain (ws_message req) in
  let '(secret, e3) := Validator.run_chain secret_chain (ws_secret req) in
  validate (e0 ++ e1 ++ e2 ++ e3)%list
    (webhook_send_handler userId to message secret send_outcome).

(** ** Vocabulary of the properties *)

(** What a settled computation returned. *)
Definition response_of {A : Type} (r : Result A * Server) : option A :=
  match r.1 with
  | Ok a => Some a
  | Throw _ => None
  end.

Definition status_of (r : Result Response * Server) : option nat :=
  status <$> response_of r.

(** Every registered client was handed out by the allocation counter. *)
Definition allocated (st : Server) : Prop :=
  forall u c, whatsappClients st !! u = Some c -> (c < next_client st)%nat.

(** The clients held by suspended calls were allocated too. *)
Definition pool_allocated (calls : list Call) (st : Server) : Prop :=
  forall u c, Suspended u c ∈ calls -> (c < next_client st)%nat.

(** The characters of a string all satisfy [p]. *)
Fixpoint all_chars (p : ascii -> bool) (s : string) : bool :=
  match s with
  | EmptyString => true
  | String c s' => p c && all_chars p s'
  end.

(** The call carries an abort signal that fires within ten seconds. *)
Definition bounded_timeout (init : RequestInit) : Prop :=
  exists ms, init_signal init = Some ms /\ (ms <= 10000)%N.


(** The log row [sendToWebhook] writes for a delivery that settled with
    [outcome]. *)
Definition incoming_log (userId : string) (webhookData : Json) (outcome : FetchOutcome)
    : LogEntry :=
  match outcome with
  | Resolved s =>
      {| log_user_id := userId; log_direction := "incoming"; log_status := pretty s;
         log_payload := webhookData;
         log_response := Some (JObj [("status", JNum (Z.of_nat s))]) |}
  | Rejected e =>
      {| log_user_id := userId; log_direction := "incoming"; log_status := "failed";
         log_payload := webhookData;
         log_response := Some (JObj [("error", JStr e)]) |}
  end.

(** The [init] object [sendToWebhook] passes to [fetch]. *)
Definition webhook_post (webhookData : Json) : RequestInit :=
  {| init_method := "POST";
     init_headers := [("Content-Type", "application/json")];
     init_body := Json.stringify webhookData;
     init_signal := None |}.

(** The violations the chains of the public send endpoint record. *)
Definition webhook_send_errors (userId : string) (req : WebhookSendBody)
    : list Validator.error :=
  ((Validator.run_chain userId_chain (Some userId)).2 ++
   (Validator.run_chain to_chain (ws_to req)).2 ++
   (Validator.run_chain message_chain (ws_message req)).2 ++
   (Validator.run_chain secret_chain (ws_secret req)).2)%list.

(** [webhook_enabled] of the user's row is true. *)
Definition enabled_for (st : Server) (userId : string) : bool :=
  default false (whatsapp_sessions st !! userId ≫= webhook_enabled).

Definition stored_secret (st : Server) (userId : string) : option string :=
  whatsapp_sessions st !! userId ≫= webhook_secret.

(** The three refusals of the public send endpoint. *)
Definition forbidden : Response :=
  status_json 403 (JObj [("success", JBool false);
                         ("error", JStr "Webhook not enabled for this user")]).

Definition unauthorized : Response :=
  status_json 401 (JObj [("success", JBool false);
                         ("error", JStr "Invalid webhook secret")]).

Definition not_connected : Response :=
  status_json 503 (JObj [("success", JBool false);
                         ("error", JStr "WhatsApp not connected for this user")]).

(** The secret a configuration call draws from the generator [rng]. *)
Definition generated_secret (rng : nat -> byte) : string :=
  toString_hex (randomBytes rng 32).

(** ** Sample data *)

Definition sample_user : string := "123e4567-e89b-12d3-a456-426614174000".

Definition sample_row (enabled : bool) : SessionRow :=
  {| webhook_url := Some "http://hooks.test/in";
     webhook_enabled := Some enabled;
     webhook_secret := Some "s3cret";
     is_connected := Some true;
     created_at := None;
     updated_at := None |}.

(** A server on which [sample_user] has a row, and a live client (number
    0) when [connected]. *)
Definition sample_server (enabled connected : bool) : Server :=
  set_whatsapp_sessions <[sample_user := sample_row enabled]>
    (if connected
     then set_whatsappClients <[sample_user := 0%nat]> (set_next_client S empty_server)
     else empty_server).

Definition sample_send (secret : string) : WebhookSendBody :=
  {| ws_to := Some "15551234567"; ws_message := Some "hello"; ws_secret := Some secret |}.

Definition sample_text (message : string) : SendMessageBody :=
  {| sm_chatId := Some "123-456@c.us"; sm_message := Some message |}.

Definition sample_config (enabled : bool) : WebhookConfigBody :=
  {| wc_webhook_url := Some "https://example.com/hook"; wc_webhook_enabled := Some enabled |}.

(** A generator that always yields the byte 0xab, and a URL test that
    accepts everything. *)
Definition sample_rng : nat -> byte := fun _ => xab.
Definition any_url : string -> bool := fun _ => true.

(** * Properties *)

Local Open Scope list_scope.

Ltac unfold_m :=
  unfold mbind, M_bind, mret, M_ret, gets, modify, emit, throw, try_catch, settle in *.

Ltac unfold_set :=
  unfold set_whatsappClients, set_clientStates, set_userWebhooks, set_whatsapp_sessions,
    set_webhook_logs, set_timers, set_next_client, set_trace in *.

(** ** The pattern matcher decides the language of the pattern *)

Module RegexFacts.
Import Regex.

Lemma append_empty (s1 s2 : string) :
  (s1 ++ s2)%string = EmptyString -> s1 = EmptyString /\ s2 = EmptyString.
Proof. destruct s1; cbn; [auto | discriminate]. Qed.

Lemma append_cons (s1 s2 : string) c s :
  (s1 ++ s2)%string = String c s ->
  (s1 = EmptyString /\ s2 = String c s)
  \/ exists s1', s1 = String c s1' /\ s = (s1' ++ s2)%string.
Proof.
  destruct s1 as [|c1 s1]; cbn; intros H; [left; auto|].
  injection H as -> <-. right. eauto.
Qed.

Lemma nullable_lang r : nullable r = true <-> lang r EmptyString.
Proof.
  split.
  - induction r; cbn; intros H; try discriminate.
    + constructor.
    + apply andb_true_iff in H as [H1 H2].
      change EmptyString with (EmptyString ++ EmptyString)%string.
      constructor; auto.
    + apply orb_true_iff in H as [H|H]; [apply L_alt_l | apply L_alt_r]; auto.
    + constructor.
  - intros H. remember EmptyString as w eqn:Ew.
    induction H; cbn; subst; try discriminate; auto.
    + apply append_empty in Ew as [-> ->]. rewrite IHlang1, IHlang2; auto.
    + rewrite IHlang; auto.
    + rewrite IHlang; auto. apply orb_true_r.
Qed.

Lemma deriv_sound c r : forall s, lang (deriv c r) s -> lang r (String c s).
Proof.
  induction r; cbn; intros s H.
  - inversion H.
  - inversion H.
  - destruct (p c) eqn:E; inversion H; subst. constructor. exact E.
  - assert (G : forall t, lang (Seq (deriv c r1) r2) t -> lang (Seq r1 r2) (String c t)).
    { intros t Ht. inversion Ht; subst.
      change (String c (s1 ++ s2)%string) with (String c s1 ++ s2)%string.
      constructor; auto. }
    destruct (nullable r1) eqn:N; [|auto].
    inversion H; subst; [auto|].
    change (String c s) with (EmptyString ++ String c s)%string.
    constructor; [apply nullable_lang; exact N | auto].
  - inversion H; subst; [apply L_alt_l | apply L_alt_r]; auto.
  - inversion H; subst.
    change (String c (s1 ++ s2)%string) with (String c s1 ++ s2)%string.
    constructor; auto.
Qed.

Lemma deriv_complete c r w :
  lang r w -> forall s, w = String c s -> lang (deriv c r) s.
Proof.
  induction 1; intros t Ht; cbn.
  - discriminate.
  - injection Ht as -> <-. rewrite H. constructor.
  - apply append_cons in Ht as [[-> ->] | (s1' & -> & ->)].
    + apply nullable_lang in H. rewrite H. apply L_alt_r. auto.
    + assert (G : lang (Seq (deriv c r1) r2) (s1' ++ s2)%string)
        by (constructor; auto).
      destruct (nullable r1); [apply L_alt_l|]; exact G.
  - apply L_alt_l. auto.
  - apply L_alt_r. auto.
  - discriminate.
  - apply append_cons in Ht as [[-> ->] | (s1' & -> & ->)].
    + apply IHlang2. reflexivity.
    + constructor; auto.
Qed.

Lemma test_lang r s : test r s = true <-> lang r s.
Proof.
  revert r. induction s as [|c s IH]; intros r; cbn.
  - apply nullable_lang.
  - rewrite IH. split; [apply deriv_sound|].
    intros H. eapply deriv_complete; [exact H | reflexivity].
Qed.

End RegexFacts.

(** ** Sanitizers and chains *)

Lemma ltrim_length s : (String.length (Js.ltrim s) <= String.length s)%nat.
Proof.
  induction s as [|c s IH]; simpl; [lia|].
  destruct (Js.is_space c); simpl; lia.
Qed.

Lemma rtrim_length s : (String.length (Js.rtrim s) <= String.length s)%nat.
Proof.
  induction s as [|c s IH]; simpl; [lia|].
  destruct (Js.rtrim s) eqn:E; simpl in *.
  - destruct (Js.is_space c); simpl; lia.
  - lia.
Qed.

Lemma trim_length s : (String.length (Validator.trim s) <= String.length s)%nat.
Proof.
  unfold Validator.trim. etrans; [apply rtrim_length | apply ltrim_length].
Qed.

Lemma truthy_nonempty s : s ≠ EmptyString -> Js.truthy s = true.
Proof. destruct s; [congruence | reflexivity]. Qed.

Lemma message_chain_run m :
  Validator.run_chain message_chain (Some m) =
  (Some (Validator.trim m),
   if Js.truthy (Validator.trim m)
   then if (String.length (Validator.trim m) <=? 4096)%nat then []
        else [Validator.Error "message" "Message too long (max 4096 chars)"]
   else Validator.Error "message" "Message cannot be empty" ::
        if (String.length (Validator.trim m) <=? 4096)%nat then []
        else [Validator.Error "message" "Message too long (max 4096 chars)"]).
Proof. reflexivity. Qed.

Lemma chatId_chain_ok :
  Validator.run_chain chatId_chain (Some "123-456@c.us") = (Some "123-456@c.us", []).
Proof. vm_compute. reflexivity. Qed.

Lemma chatId_chain_abc :
  Validator.run_chain chatId_chain (Some "abc@c.us") =
  (Some "abc@c.us", [Validator.Error "chatId" "Invalid chat ID format"]).
Proof. vm_compute. reflexivity. Qed.

Lemma to_chain_run t :
  Validator.run_chain to_chain (Some t) =
  (Some (Validator.trim t),
   if Js.truthy (Validator.trim t)
   then if Regex.test Validator.phone_re (Validator.trim t) then []
        else [Validator.Error "to" "Invalid phone number format"]
   else Validator.Error "to" "Recipient is required" ::
        if Regex.test Validator.phone_re (Validator.trim t) then []
        else [Validator.Error "to" "Invalid phone number format"]).
Proof. reflexivity. Qed.

Lemma secret_chain_run s :
  Validator.run_chain secret_chain (Some s) =
  (Some s, if Js.truthy s then [] else [Validator.Error "secret" "Secret is required"]).
Proof. reflexivity. Qed.

(** A chain with a [notEmpty()] link records a violation on a missing
    field. *)
Lemma required_chain_missing c :
  Validator.optional c = false ->
  (exists msg, In (Validator.NotEmpty msg) (Validator.steps c)) ->
  (Validator.run_chain c None).2 ≠ [].
Proof.
  intros Hopt (msg & Hin). unfold Validator.run_chain. rewrite Hopt.
  assert (G : forall l, In (Validator.NotEmpty msg) l ->
            (Validator.run_steps (Validator.path c) l EmptyString).2 ≠ []).
  { induction l as [|s l IH]; intros Hl; [destruct Hl|].
    destruct Hl as [->|Hl].
    - cbn. destruct (Validator.run_steps (Validator.path c) l EmptyString). cbn. discriminate.
    - specialize (IH Hl).
      destruct s; cbn; [exact IH| | | |];
        destruct (Validator.run_steps (Validator.path c) l EmptyString) as [v' es];
        cbn in *.
      + discriminate.
      + destruct (Regex.nullable r); [exact IH | discriminate].
      + exact IH.
      + destruct (p EmptyString); [exact IH | discriminate]. }
  specialize (G (Validator.steps c) Hin).
  destruct (Validator.run_steps (Validator.path c) (Validator.steps c) EmptyString).
  exact G.
Qed.

(** ** [POST /send-message]: validation *)

Lemma send_message_handler_not_400 userId chatId message o st :
  chatId ≠ EmptyString -> message ≠ EmptyString ->
  status_of (send_message_handler userId (Some chatId) (Some message) o st) ≠ Some 400%nat.
Proof.
  intros Hc Hm. unfold send_message_handler, client_sendMessage, status_of, response_of.
  unfold_m. cbn. rewrite (truthy_nonempty _ Hc), (truthy_nonempty _ Hm). cbn.
  destruct (whatsappClients st !! userId); cbn; [|discriminate].
  destruct o; cbn; discriminate.
Qed.

(** C8 (as amended). On [POST /send-message] the length bound applies to
    the message after the [trim()] sanitizer: a message whose trimmed
    length exceeds 4096 (so one of trimmed length 4097) is rejected with
    status 400 and no effect; a message whose trimmed form is non-empty and
    at most 4096 characters long, in particular every message of length
    4096 that is non-empty after trimming, passes validation together with
    chatId ["123-456@c.us"] and reaches the handler; chatId ["abc@c.us"]
    is rejected with status 400 whatever the message. *)
Theorem send_message_validation (userId message : string) (o : option string) (st : Server) :
  let run chatId :=
    post_send_message userId {| sm_chatId := Some chatId; sm_message := Some message |} o st in
  let trimmed := Validator.trim message in
  ((4096 < String.length trimmed)%nat ->
     forall chatId, status_of (run chatId) = Some 400%nat /\ (run chatId).2 = st)
  /\ (trimmed ≠ EmptyString -> (String.length trimmed <= 4096)%nat ->
        run "123-456@c.us" =
          send_message_handler userId (Some "123-456@c.us") (Some trimmed) o st
        /\ status_of (run "123-456@c.us") ≠ Some 400%nat)
  /\ (String.length message = 4096%nat -> trimmed ≠ EmptyString ->
        status_of (run "123-456@c.us") ≠ Some 400%nat)
  /\ (status_of (run "abc@c.us") = Some 400%nat /\ (run "abc@c.us").2 = st).
Proof.
  intros run trimmed.
  assert (Hacc : trimmed ≠ EmptyString -> (String.length trimmed <= 4096)%nat ->
        run "123-456@c.us" =
          send_message_handler userId (Some "123-456@c.us") (Some trimmed) o st
        /\ status_of (run "123-456@c.us") ≠ Some 400%nat).
  { intros Hne Hle. subst run. cbv beta.
    assert (E : post_send_message userId
               {| sm_chatId := Some "123-456@c.us"; sm_message := Some message |} o st =
             send_message_handler userId (Some "123-456@c.us") (Some trimmed) o st).
    { unfold post_send_message. cbn [sm_chatId sm_message].
      rewrite chatId_chain_ok, message_chain_run. fold trimmed.
      rewrite (truthy_nonempty _ Hne).
      apply Nat.leb_le in Hle. rewrite Hle. reflexivity. }
    split; [exact E|]. rewrite E.
    apply send_message_handler_not_400; [discriminate | exact Hne]. }
  split; [|split; [exact Hacc | split]].
  - intros Hlong chatId. subst run. cbv beta.
    unfold post_send_message. cbn [sm_chatId sm_message].
    rewrite message_chain_run. fold trimmed.
    apply Nat.leb_gt in Hlong. rewrite Hlong.
    destruct (Validator.run_chain chatId_chain (Some chatId)) as [c e1].
    destruct (Js.truthy trimmed), e1; split; reflexivity.
  - intros Hlen Hne. apply Hacc; [exact Hne|].
    subst trimmed. rewrite <- Hlen. apply trim_length.
  - subst run. cbv beta. unfold post_send_message. cbn [sm_chatId sm_message].
    rewrite chatId_chain_abc.
    destruct (Validator.run_chain message_chain (Some message)) as [m e2].
    split; reflexivity.
Qed.

Lemma send_message_validation_witness :
  status_of (post_send_message "u" (sample_text (Js.repeat "a" 4097)) None empty_server)
    = Some 400%nat
  /\ status_of (post_send_message "u" (sample_text (Js.repeat "a" 4096)) None empty_server)
    ≠ Some 400%nat.
Proof.
  split.
  - destruct (send_message_validation "u" (Js.repeat "a" 4097) None empty_server)
      as (H & _).
    apply (H ltac:(apply Nat.ltb_lt; vm_compute; reflexivity) "123-456@c.us").
  - destruct (send_message_validation "u" (Js.repeat "a" 4096) None empty_server)
      as (_ & _ & H & _).
    apply H; [vm_compute; reflexivity | vm_compute; discriminate].
Defined.

(** C8 fails as stated: a message of length 4097 that ends in a space is
    trimmed to 4096 characters, passes validation and is sent. *)
Lemma send_message_4097_padded_accepted :
  let message := (Js.repeat "a" 4096 ++ " ")%string in
  let r := post_send_message sample_user (sample_text message) None (sample_server true true) in
  String.length message = 4097%nat
  /\ status_of r = Some 200%nat
  /\ dispatches (trace r.2) = [(0%nat, "123-456@c.us", Js.repeat "a" 4096)].
Proof. vm_compute. repeat split. Qed.

(** ** [getWhatsAppClient] *)

Lemma enter_present userId c st :
  whatsappClients st !! userId = Some c ->
  getWhatsAppClient_enter userId st = (Ok (inl c), st).
Proof.
  intros H. unfold getWhatsAppClient_enter. unfold_m. cbn. rewrite H. reflexivity.
Qed.

Lemma enter_absent userId st :
  whatsappClients st !! userId = None ->
  getWhatsAppClient_enter userId st =
  (Ok (inr (next_client st)),
   {| whatsappClients := whatsappClients st;
      clientStates := <[userId := fresh_state]> (clientStates st);
      userWebhooks := userWebhooks st;
      whatsapp_sessions := whatsapp_sessions st;
      webhook_logs := webhook_logs st;
      timers := timers st;
      next_client := S (next_client st);
      trace := trace st ++ [NewClient (next_client st) userId] |}).
Proof.
  intros H. unfold getWhatsAppClient_enter, new_Client. unfold_m. cbn. rewrite H. reflexivity.
Qed.

Lemma resume_registers userId client st :
  exists st',
    getWhatsAppClient_resume userId client st = (Ok client, st')
    /\ whatsappClients st' = <[userId := client]> (whatsappClients st)
    /\ clientStates st' = clientStates st
    /\ next_client st' = next_client st
    /\ trace st' = trace st ++ [ClientInitialize client].
Proof.
  unfold getWhatsAppClient_resume, client_initialize. unfold_m. cbn.
  destruct (stored_webhook (whatsapp_sessions st !! userId)); cbn;
    eexists; (split; [reflexivity|]); cbn; repeat split.
Qed.

(** A call that finds an entry returns it and changes nothing: no client
    is built. *)
Lemma getWhatsAppClient_existing userId c st :
  whatsappClients st !! userId = Some c ->
  getWhatsAppClient userId st = (Ok c, st).
Proof.
  intros H. unfold getWhatsAppClient. unfold_m.
  rewrite (enter_present _ _ _ H). reflexivity.
Qed.

Lemma getWhatsAppClient_absent userId st :
  whatsappClients st !! userId = None ->
  getWhatsAppClient userId st =
  (Ok (next_client st),
   {| whatsappClients := <[userId := next_client st]> (whatsappClients st);
      clientStates := <[userId := fresh_state]> (clientStates st);
      userWebhooks :=
        match stored_webhook (whatsapp_sessions st !! userId) with
        | Some url => <[userId := url]> (userWebhooks st)
        | None => userWebhooks st
        end;
      whatsapp_sessions := whatsapp_sessions st;
      webhook_logs := webhook_logs st;
      timers := timers st;
      next_client := S (next_client st);
      trace := trace st ++ [NewClient (next_client st) userId;
                            ClientInitialize (next_client st)] |}).
Proof.
  intros H.
  unfold getWhatsAppClient, getWhatsAppClient_enter, getWhatsAppClient_resume,
    new_Client, client_initialize.
  unfold_m. cbn. rewrite H. cbn.
  destruct (stored_webhook (whatsapp_sessions st !! userId)); unfold_set; cbn;
    rewrite <- app_assoc; reflexivity.
Qed.

(** Calls that do not overlap share one client. *)
Lemma sequential_calls_share_client userId st :
  exists c st1,
    getWhatsAppClient userId st = (Ok c, st1)
    /\ getWhatsAppClient userId st1 = (Ok c, st1).
Proof.
  destruct (whatsappClients st !! userId) as [c|] eqn:E.
  - exists c, st. rewrite (getWhatsAppClient_existing _ _ _ E). split; reflexivity.
  - rewrite (getWhatsAppClient_absent _ _ E). eexists _, _. split; [reflexivity|].
    apply getWhatsAppClient_existing. cbn. apply lookup_insert_eq.
Qed.

(** C1 (the code departs from it). Two [getWhatsAppClient] calls for a
    user without an entry, the second entering while the first is
    suspended at its [await]: both pass the [has] test, each builds and
    starts a client of its own, and each registers it in turn. After the
    first call resumes the registry holds client [n]; after the second it
    holds the distinct client [n + 1], and client [n], still running, is
    no longer reachable from the registry. *)
Theorem interleaved_calls_build_two_clients (userId : string) (st : Server) :
  whatsappClients st !! userId = None ->
  let n := next_client st in
  let calls := [Arrived userId; Arrived userId] in
  let mid := run_schedule [0; 1; 0]%nat calls st in
  let r := run_schedule [0; 1; 0; 1]%nat calls st in
  mid.1 = Ok [Returned n; Suspended userId (S n)]
  /\ whatsappClients mid.2 !! userId = Some n
  /\ r.1 = Ok [Returned n; Returned (S n)]
  /\ whatsappClients r.2 !! userId = Some (S n)
  /\ constructed (trace r.2) = constructed (trace st) ++ [n; S n]
  /\ initialized (trace r.2) = initialized (trace st) ++ [n; S n].
Proof.
  intros H n calls mid r. subst mid r calls.
  unfold run_schedule, advance, getWhatsAppClient_enter, getWhatsAppClient_resume,
    new_Client, client_initialize, constructed, initialized.
  unfold_m. unfold_set. cbn. rewrite H. cbn. rewrite H. cbn.
  destruct (stored_webhook (whatsapp_sessions st !! userId)) eqn:E; cbn;
    rewrite ?E; cbn; rewrite ?lookup_insert_eq, ?omap_app; cbn;
    rewrite <- ?app_assoc; repeat split.
Qed.

Lemma interleaved_calls_build_two_clients_witness :
  (run_schedule [0; 1; 0; 1]%nat [Arrived "u"; Arrived "u"] empty_server).1
    = Ok [Returned 0%nat; Returned 1%nat]
  /\ initialized
       (trace (run_schedule [0; 1; 0; 1]%nat [Arrived "u"; Arrived "u"] empty_server).2)
     = [0%nat; 1%nat].
Proof.
  destruct (interleaved_calls_build_two_clients "u" empty_server) as (_ & _ & H & _ & _ & Hi).
  - reflexivity.
  - split; [exact H | exact Hi].
Defined.

(** ** [POST /logout-whatsapp] *)

Lemma post_logout_absent userId o now st :
  whatsappClients st !! userId = None ->
  post_logout_whatsapp userId o now st =
    (Ok (json (JObj [("success", JBool true);
                     ("message",
                      JStr "WhatsApp disconnected. You will need to scan QR code again.")])),
     st).
Proof.
  intros H. unfold post_logout_whatsapp. unfold_m. cbn. rewrite H. reflexivity.
Qed.

Lemma post_logout_present userId c o now st :
  whatsappClients st !! userId = Some c ->
  post_logout_whatsapp userId o now st =
  (Ok (json (JObj [("success", JBool true);
                   ("message",
                    JStr "WhatsApp disconnected. You will need to scan QR code again.")])),
   {| whatsappClients := delete userId (whatsappClients st);
      clientStates := delete userId (clientStates st);
      userWebhooks := delete userId (userWebhooks st);
      whatsapp_sessions := alter (mark_disconnected now) userId (whatsapp_sessions st);
      webhook_logs := webhook_logs st;
      timers := timers st ++ [{| timer_client := c; timer_delay := 2000 |}];
      next_client := next_client st;
      trace := trace st ++ [ClientLogout c] |}).
Proof.
  intros H. unfold post_logout_whatsapp, client_logout, setTimeout_destroy. unfold_m. cbn.
  rewrite H. destruct o; reflexivity.
Qed.

Lemma destroy_callback_swallows c d st :
  destroy_callback c d st = (Ok tt, set_trace (fun t => t ++ [ClientDestroy c]) st).
Proof. unfold destroy_callback, client_destroy. unfold_m. destruct d; reflexivity. Qed.

(** When the timer set by a teardown fires, the client is destroyed,
    whether [destroy()] succeeds or throws; a second firing finds no timer
    and destroys nothing. *)
Lemma logout_timer_destroys_once userId c o now d d' st :
  whatsappClients st !! userId = Some c ->
  timers st = [] ->
  let st1 := (post_logout_whatsapp userId o now st).2 in
  let fired := fire_timer d st1 in
  fired.1 = Ok tt
  /\ trace fired.2 = trace st ++ [ClientLogout c; ClientDestroy c]
  /\ timers fired.2 = []
  /\ fire_timer d' fired.2 = (Ok tt, fired.2).
Proof.
  intros Hc Ht st1 fired. subst fired st1.
  rewrite (post_logout_present _ _ _ _ _ Hc). cbn [snd].
  unfold fire_timer. unfold_m. cbn. rewrite Ht. cbn.
  rewrite destroy_callback_swallows. unfold_set. cbn.
  rewrite <- app_assoc. repeat split.
Qed.

(** ** The allocation invariant *)

Lemma allocated_empty : allocated empty_server.
Proof. intros u c H. cbn in H. rewrite lookup_empty in H. discriminate. Qed.

Lemma allocated_insert userId c st st' :
  allocated st -> (c < next_client st')%nat -> (next_client st <= next_client st')%nat ->
  whatsappClients st' = <[userId := c]> (whatsappClients st) ->
  allocated st'.
Proof.
  intros Ha Hc Hle E u c'. rewrite E.
  destruct (decide (userId = u)) as [->|Hne].
  - rewrite lookup_insert_eq. intros [= <-]. exact Hc.
  - rewrite lookup_insert_ne by exact Hne. intros H. specialize (Ha _ _ H). lia.
Qed.

Lemma allocated_getWhatsAppClient userId st :
  allocated st -> allocated (getWhatsAppClient userId st).2.
Proof.
  intros Ha. destruct (whatsappClients st !! userId) as [c|] eqn:E.
  - rewrite (getWhatsAppClient_existing _ _ _ E). exact Ha.
  - rewrite (getWhatsAppClient_absent _ _ E).
    eapply (allocated_insert userId (next_client st) st); cbn; [exact Ha | lia | lia | reflexivity].
Qed.

Lemma allocated_logout userId o now st :
  allocated st -> allocated (post_logout_whatsapp userId o now st).2.
Proof.
  intros Ha. destruct (whatsappClients st !! userId) as [c|] eqn:E.
  - rewrite (post_logout_present _ _ _ _ _ E). intros u c'. cbn.
    intros H. apply lookup_delete_Some in H as [_ H]. exact (Ha _ _ H).
  - rewrite (post_logout_absent _ _ _ _ E). exact Ha.
Qed.

Lemma advance_allocated call st :
  allocated st ->
  (forall u c, call = Suspended u c -> (c < next_client st)%nat) ->
  exists call' st',
    advance call st = (Ok call', st')
    /\ allocated st'
    /\ (next_client st <= next_client st')%nat
    /\ (forall u c, call' = Suspended u c -> (c < next_client st')%nat).
Proof.
  intros Ha Hc. destruct call as [userId | userId client | client]; cbn [advance].
  - unfold_m. destruct (whatsappClients st !! userId) as [c|] eqn:E.
    + rewrite (enter_present _ _ _ E). eexists _, _. split; [reflexivity|].
      repeat split; [exact Ha | lia | discriminate].
    + rewrite (enter_absent _ _ E). eexists _, _. split; [reflexivity|]. cbn.
      repeat split; [|lia|].
      * intros u c H. cbn in H. specialize (Ha u c H). cbn. lia.
      * intros u c [= _ <-]. lia.
  - unfold_m. destruct (resume_registers userId client st) as (st' & E & Hw & _ & Hn & _).
    rewrite E. eexists _, _. split; [reflexivity|].
    repeat split; [|lia|discriminate].
    eapply (allocated_insert userId client st); [exact Ha | | lia | exact Hw].
    rewrite Hn. eapply Hc. reflexivity.
  - unfold_m. eexists _, _. split; [reflexivity|].
    repeat split; [exact Ha | lia | discriminate].
Qed.

(** Whatever the schedule, the interleaved calls all settle, and the
    invariant holds in the state they leave. *)
Lemma run_schedule_allocated schedule :
  forall calls st,
    allocated st -> pool_allocated calls st ->
    exists calls' st',
      run_schedule schedule calls st = (Ok calls', st')
      /\ allocated st' /\ pool_allocated calls' st'.
Proof.
  induction schedule as [|i schedule IH]; intros calls st Ha Hp; cbn [run_schedule].
  - eexists _, _. split; [reflexivity|]. split; assumption.
  - destruct (calls !! i) as [call|] eqn:Ei; [|apply IH; assumption].
    destruct (advance_allocated call st Ha) as (call' & st' & E & Ha' & Hle & Hc').
    { intros u c ->. apply (Hp u c). eapply list_elem_of_lookup_2. exact Ei. }
    unfold mbind, M_bind. rewrite E. apply IH; [exact Ha'|].
    intros u c Hin. apply list_elem_of_lookup in Hin as [j Hj].
    destruct (decide (i = j)) as [->|Hne].
    + rewrite list_lookup_insert_eq in Hj by (eapply lookup_lt_Some; exact Ei).
      injection Hj as ->. eapply Hc'. reflexivity.
    + rewrite list_lookup_insert_ne in Hj by exact Hne.
      specialize (Hp u c (list_elem_of_lookup_2 _ _ _ Hj)). lia.
Qed.




(** C10. [POST /logout-whatsapp] for a user without a session in the
    registry answers 200 with [success: true] and leaves the whole server
    state as it was: the registry, the state map, the webhook map and
    both tables; no call is made to the outside. *)
Theorem logout_absent_session_noop (userId : string) (o : option string) (now : string)
    (st : Server) :
  whatsappClients st !! userId = None ->
  post_logout_whatsapp userId o now st =
    (Ok {| status := 200;
           body := JObj [("success", JBool true);
                         ("message",
                          JStr "WhatsApp disconnected. You will need to scan QR code again.")] |},
     st).
Proof. apply post_logout_absent. Qed.

Lemma logout_absent_session_noop_witness :
  status_of (post_logout_whatsapp "u" None "now" empty_server) = Some 200%nat
  /\ (post_logout_whatsapp "u" None "now" empty_server).2 = empty_server.
Proof.
  rewrite (logout_absent_session_noop "u" None "now" empty_server); [split|]; reflexivity.
Defined.

(** ** [sendToWebhook] *)

Lemma sendToWebhook_unconfigured userId data outcome st :
  Js.truthy_opt (userWebhooks st !! userId) = false ->
  sendToWebhook userId data outcome st = (Ok tt, st).
Proof.
  intros H. unfold sendToWebhook. unfold_m. cbn. rewrite H. reflexivity.
Qed.

Lemma sendToWebhook_configured userId data outcome url st :
  userWebhooks st !! userId = Some url -> Js.truthy url = true ->
  sendToWebhook userId data outcome st =
  (Ok tt,
   {| whatsappClients := whatsappClients st;
      clientStates := clientStates st;
      userWebhooks := userWebhooks st;
      whatsapp_sessions := whatsapp_sessions st;
      webhook_logs := webhook_logs st ++ [incoming_log userId data outcome];
      timers := timers st;
      next_client := next_client st;
      trace := trace st ++ [Fetch url (webhook_post data)] |}).
Proof.
  intros H Ht. unfold sendToWebhook, fetch, insert_log. unfold_m. cbn. rewrite H. cbn.
  rewrite Ht. cbn. destruct outcome; reflexivity.
Qed.

Lemma sendToWebhook_returns userId data outcome st :
  (sendToWebhook userId data outcome st).1 = Ok tt.
Proof.
  destruct (Js.truthy_opt (userWebhooks st !! userId)) eqn:Ht.
  - destruct (userWebhooks st !! userId) as [url|] eqn:E; [|discriminate].
    rewrite (sendToWebhook_configured userId _ outcome url st E Ht). reflexivity.
  - rewrite (sendToWebhook_unconfigured userId _ outcome st Ht). reflexivity.
Qed.

Lemma post_webhook_test_ok userId now outcome st :
  status_of (post_webhook_test userId now outcome st) = Some 200%nat.
Proof.
  unfold post_webhook_test. unfold_m.
  destruct (Js.truthy_opt (userWebhooks st !! userId)) eqn:Ht.
  - destruct (userWebhooks st !! userId) as [url|] eqn:E; [|discriminate].
    rewrite (sendToWebhook_configured userId _ outcome url st E Ht). reflexivity.
  - rewrite (sendToWebhook_unconfigured userId _ outcome st Ht). reflexivity.
Qed.

(** C5. [sendToWebhook] always returns normally, whether the delivery
    succeeds or fails, and the route that triggers it answers 200 either
    way. Without a webhook URL for the user it changes nothing. With one it
    makes exactly one [fetch], a POST of [JSON.stringify(webhookData)] to
    that URL, and appends exactly one row to [webhook_logs], whose status
    is the HTTP status of the response when the call completes and
    ["failed"] when it throws; a failed call is not repeated. *)
Theorem sendToWebhook_delivery (userId : string) (webhookData : Json) (outcome : FetchOutcome)
    (st : Server) :
  let r := sendToWebhook userId webhookData outcome st in
  r.1 = Ok tt
  /\ (forall now, status_of (post_webhook_test userId now outcome st) = Some 200%nat)
  /\ (userWebhooks st !! userId = None -> r.2 = st)
  /\ (forall url, userWebhooks st !! userId = Some url -> url ≠ EmptyString ->
        trace r.2 =
          trace st ++
          [Fetch url {| init_method := "POST";
                        init_headers := [("Content-Type", "application/json")];
                        init_body := Json.stringify webhookData;
                        init_signal := None |}]
        /\ exists entry,
             webhook_logs r.2 = webhook_logs st ++ [entry]
             /\ log_user_id entry = userId
             /\ log_direction entry = "incoming"
             /\ log_payload entry = webhookData
             /\ log_status entry =
                  match outcome with
                  | Resolved s => pretty s
                  | Rejected _ => "failed"
                  end).
Proof.
  intros r. subst r.
  split; [apply sendToWebhook_returns|].
  split; [intros now; apply post_webhook_test_ok|].
  split.
  - intros E. rewrite sendToWebhook_unconfigured; [reflexivity | rewrite E; reflexivity].
  - intros url E Hne.
    rewrite (sendToWebhook_configured userId _ outcome url st E (truthy_nonempty _ Hne)).
    split; [reflexivity|].
    exists (incoming_log userId webhookData outcome).
    destruct outcome; repeat split.
Qed.

Lemma sendToWebhook_delivery_witness :
  let st := set_userWebhooks <["u" := "http://hooks.test/in"]> empty_server in
  exists entry,
    webhook_logs (sendToWebhook "u" (JStr "hi") (Rejected "ECONNREFUSED") st).2 = [entry]
    /\ log_status entry = "failed".
Proof.
  intros st.
  destruct (sendToWebhook_delivery "u" (JStr "hi") (Rejected "ECONNREFUSED") st)
    as (_ & _ & _ & H).
  destruct (H "http://hooks.test/in") as (_ & entry & Hl & _ & _ & _ & Hs).
  - reflexivity.
  - discriminate.
  - exists entry. split; [exact Hl | exact Hs].
Defined.

(** C7 (as amended). The [fetch] of [sendToWebhook] is made without an
    abort signal or any other bound on its duration: every call it issues
    carries exactly [method], [headers] and [body], so the delivery lasts
    until the endpoint answers or the connection fails. *)
Theorem sendToWebhook_fetch_unbounded (userId : string) (webhookData : Json)
    (outcome : FetchOutcome) (st : Server) :
  exists issued,
    fetches (trace (sendToWebhook userId webhookData outcome st).2)
      = fetches (trace st) ++ issued
    /\ Forall (fun call => init_signal call.2 = None /\ ~ bounded_timeout call.2) issued.
Proof.
  destruct (Js.truthy_opt (userWebhooks st !! userId)) eqn:Ht.
  - destruct (userWebhooks st !! userId) as [url|] eqn:E; [|discriminate].
    rewrite (sendToWebhook_configured userId _ outcome url st E Ht). cbn.
    exists [(url, webhook_post webhookData)]. split.
    + unfold fetches. rewrite omap_app. reflexivity.
    + constructor; [|constructor]. split; [reflexivity|].
      intros (ms & Hms & _). discriminate.
  - rewrite (sendToWebhook_unconfigured userId _ outcome st Ht).
    exists []. split; [rewrite app_nil_r; reflexivity | constructor].
Qed.

(** C7 fails as stated: the one [fetch] of a delivery has no timeout. *)
Lemma sendToWebhook_timeout_counterexample :
  let st := set_userWebhooks <["u" := "http://hooks.test/in"]> empty_server in
  exists init,
    fetches (trace (sendToWebhook "u" (JStr "hi") (Resolved 200) st).2)
      = [("http://hooks.test/in", init)]
    /\ init_signal init = None
    /\ ~ bounded_timeout init.
Proof.
  exists (webhook_post (JStr "hi")). split; [vm_compute; reflexivity|].
  split; [reflexivity|]. intros (ms & Hms & _). discriminate.
Qed.

(** ** The chatId of a public send *)

Lemma all_chars_app p s1 s2 :
  all_chars p (s1 ++ s2)%string = all_chars p s1 && all_chars p s2.
Proof.
  induction s1 as [|c s1 IH]; [reflexivity|].
  change (all_chars p (String c s1 ++ s2)%string)
    with (p c && all_chars p (s1 ++ s2)%string).
  rewrite IH. apply andb_assoc.
Qed.

Lemma lang_class_inv p s :
  Regex.lang (Regex.Class p) s -> exists c, s = String c EmptyString /\ p c = true.
Proof. intros H. inversion H; subst. eauto. Qed.

Lemma lang_seq_inv r1 r2 s :
  Regex.lang (Regex.Seq r1 r2) s ->
  exists s1 s2, s = (s1 ++ s2)%string /\ Regex.lang r1 s1 /\ Regex.lang r2 s2.
Proof. intros H. inversion H; subst. eauto. Qed.

Lemma lang_alt_inv r1 r2 s :
  Regex.lang (Regex.Alt r1 r2) s -> Regex.lang r1 s \/ Regex.lang r2 s.
Proof. intros H. inversion H; subst; auto. Qed.

Lemma lang_eps_inv s : Regex.lang Regex.Eps s -> s = EmptyString.
Proof. intros H. inversion H. reflexivity. Qed.

Lemma star_class_chars p s : Regex.lang (Regex.Star (Regex.Class p)) s -> all_chars p s = true.
Proof.
  intros H. remember (Regex.Star (Regex.Class p)) as r eqn:Er.
  induction H; try discriminate; [reflexivity|].
  injection Er as ->. rewrite all_chars_app, IHlang2 by reflexivity.
  apply lang_class_inv in H as (c & -> & Hc). cbn. rewrite Hc. reflexivity.
Qed.

Lemma plus_class_chars p s : Regex.lang (Regex.plus (Regex.Class p)) s -> all_chars p s = true.
Proof.
  unfold Regex.plus. intros H.
  apply lang_seq_inv in H as (s1 & s2 & -> & H1 & H2).
  rewrite all_chars_app, (star_class_chars _ _ H2).
  apply lang_class_inv in H1 as (c & -> & Hc). cbn. rewrite Hc. reflexivity.
Qed.

Lemma includes_app_r s1 s2 sub :
  Js.includes s2 sub = true -> Js.includes (s1 ++ s2)%string sub = true.
Proof.
  intros H. induction s1 as [|c s1 IH]; [exact H|].
  change (Js.includes (String c s1 ++ s2)%string sub)
    with (String.prefix sub (String c (s1 ++ s2)%string) || Js.includes (s1 ++ s2)%string sub).
  rewrite IH. apply orb_true_r.
Qed.

Lemma includes_at_none s :
  all_chars (fun c => Js.is_digit c || Ascii.eqb c "-") s = true ->
  Js.includes s "@" = false.
Proof.
  induction s as [|c s IH]; [reflexivity|].
  cbn [all_chars]. intros H. apply andb_true_iff in H as [Hc Hs].
  change (Js.includes (String c s) "@")
    with ((if ascii_dec "@" c then String.prefix EmptyString s else false)
          || Js.includes s "@").
  rewrite (IH Hs), orb_false_r.
  destruct (ascii_dec "@" c) as [<-|Hne]; [discriminate | reflexivity].
Qed.

(** The chatId built from a [to] that passed validation has the format the
    authenticated endpoint demands of a chatId. *)
Lemma format_chatId_wellformed to :
  Regex.test Validator.phone_re to = true ->
  Regex.test Validator.chatId_re (format_chatId to) = true.
Proof.
  rewrite !RegexFacts.test_lang. unfold Validator.phone_re, Validator.chatId_re, Regex.opt.
  intros H. apply lang_seq_inv in H as (d & x & -> & Hd & Hx).
  unfold format_chatId. apply lang_alt_inv in Hx as [Hx | Hx].
  - assert (Hat : Js.includes x "@" = true).
    { apply lang_seq_inv in Hx as (a & b & -> & Ha & _).
      apply lang_class_inv in Ha as (c & -> & Hc).
      apply Ascii.eqb_eq in Hc. subst c.
      change (Js.includes (String "@" EmptyString ++ b)%string "@")
        with ((if ascii_dec "@" "@" then String.prefix EmptyString b else false)
              || Js.includes b "@").
      destruct (ascii_dec "@" "@"); [|congruence].
      destruct b; reflexivity. }
    rewrite (includes_app_r d x "@" Hat). constructor; assumption.
  - apply lang_eps_inv in Hx. subst x.
    assert (E : (d ++ EmptyString)%string = d).
    { clear. induction d as [|c d IH]; [reflexivity|].
      change (String c d ++ EmptyString)%string with (String c (d ++ EmptyString)%string).
      rewrite IH. reflexivity. }
    rewrite E. rewrite (includes_at_none d (plus_class_chars _ _ Hd)).
    constructor; [exact Hd|]. apply RegexFacts.test_lang. reflexivity.
Qed.

(** ** The public send endpoint *)

(** A request whose chains record no violation reaches the handler with
    its fields sanitized: [to] and [message] trimmed and non-empty. *)
Lemma webhook_send_valid userId req o st :
  webhook_send_errors userId req = [] ->
  exists to message secret,
    ws_to req = Some to /\ ws_message req = Some message /\ ws_secret req = Some secret
    /\ Validator.trim to ≠ EmptyString /\ Validator.trim message ≠ EmptyString
    /\ secret ≠ EmptyString
    /\ Regex.test Validator.phone_re (Validator.trim to) = true
    /\ post_webhook_send userId req o st =
       webhook_send_handler userId (Some (Validator.trim to)) (Some (Validator.trim message))
         (Some secret) o st.
Proof.
  unfold webhook_send_errors. intros H.
  apply app_eq_nil in H as [H0 H]. apply app_eq_nil in H as [H1 H].
  apply app_eq_nil in H as [H2 H3].
  destruct (ws_to req) as [to|] eqn:Eto; cycle 1.
  { exfalso. revert H1. apply required_chain_missing; [reflexivity|].
    eexists. cbn. right. left. reflexivity. }
  destruct (ws_message req) as [message|] eqn:Em; cycle 1.
  { exfalso. revert H2. apply required_chain_missing; [reflexivity|].
    eexists. cbn. right. left. reflexivity. }
  destruct (ws_secret req) as [secret|] eqn:Es; cycle 1.
  { exfalso. revert H3. apply required_chain_missing; [reflexivity|].
    eexists. cbn. left. reflexivity. }
  exists to, message, secret.
  rewrite to_chain_run in H1. rewrite message_chain_run in H2. rewrite secret_chain_run in H3.
  cbn [snd] in H1, H2, H3.
  destruct (Js.truthy (Validator.trim to)) eqn:Tt; [|discriminate].
  destruct (Regex.test Validator.phone_re (Validator.trim to)) eqn:Rt; [|discriminate].
  destruct (Js.truthy (Validator.trim message)) eqn:Tm; [|discriminate].
  destruct (String.length (Validator.trim message) <=? 4096)%nat eqn:Lm; [|discriminate].
  destruct (Js.truthy secret) eqn:Ts; [|discriminate].
  split; [reflexivity|]. split; [reflexivity|]. split; [reflexivity|].
  split; [intros E; rewrite E in Tt; discriminate|].
  split; [intros E; rewrite E in Tm; discriminate|].
  split; [intros E; rewrite E in Ts; discriminate|].
  split; [reflexivity|].
  unfold post_webhook_send. rewrite Eto, Em, Es.
  destruct (Validator.run_chain userId_chain (Some userId)) as [u e0] eqn:E0.
  cbn [snd] in H0. subst e0.
  rewrite to_chain_run, message_chain_run, secret_chain_run.
  rewrite Tt, Rt, Tm, Lm, Ts. reflexivity.
Qed.

(** The decisions of the handler, for one user on one server state. *)
Section PublicSendHandler.

Variables (userId : string) (o : option string) (st : Server).

Lemma handler_not_enabled to message secret :
  enabled_for st userId = false ->
  webhook_send_handler userId to message secret o st = (Ok forbidden, st).
Proof.
  unfold enabled_for, webhook_send_handler. unfold_m. cbn. intros H.
  destruct (whatsapp_sessions st !! userId) as [row|]; [|reflexivity].
  cbn in H. rewrite H. reflexivity.
Qed.

Section Enabled.

Hypothesis Henabled : enabled_for st userId = true.

Lemma handler_wrong_secret to message secret :
  secret ≠ stored_secret st userId ->
  webhook_send_handler userId to message secret o st = (Ok unauthorized, st).
Proof.
  revert Henabled.
  unfold enabled_for, stored_secret, webhook_send_handler. unfold_m. cbn. intros H Hs.
  destruct (whatsapp_sessions st !! userId) as [row|]; [|discriminate].
  cbn in H, Hs. rewrite H. cbn. rewrite bool_decide_eq_false_2 by exact Hs. reflexivity.
Qed.

Variables (to message secret : string).
Hypothesis Hsecret : Some secret = stored_secret st userId.
Hypothesis Hto : to ≠ EmptyString.
Hypothesis Hmessage : message ≠ EmptyString.

(** Past the two authorization checks and the field check the handler is
    down to the registry lookup. *)
Lemma handler_authorized :
  webhook_send_handler userId (Some to) (Some message) (Some secret) o st =
  try_catch
    (client ← gets (fun st => whatsappClients st !! userId);
     match client with
     | None => mret not_connected
     | Some c =>
         client_sendMessage c (format_chatId to) message o;;
         insert_log {| log_user_id := userId;
                       log_direction := "outgoing";
                       log_status := "success";
                       log_payload := JObj [("to", JStr to); ("message", JStr message)];
                       log_response := None |};;
         mret (json (JObj [("success", JBool true);
                           ("message", JStr "Message sent successfully");
                           ("to", JStr (format_chatId to))]))
     end)
    (fun error =>
       mret (status_json 500 (JObj [("success", JBool false); ("error", JStr error)]))) st.
Proof.
  revert Henabled Hsecret.
  unfold enabled_for, stored_secret, webhook_send_handler. unfold_m. cbn.
  intros H Hs.
  destruct (whatsapp_sessions st !! userId) as [row|]; [|discriminate].
  cbn in H, Hs. rewrite H. cbn. rewrite bool_decide_eq_true_2 by exact Hs. cbn.
  rewrite (truthy_nonempty _ Hto), (truthy_nonempty _ Hmessage). reflexivity.
Qed.

Lemma handler_not_connected :
  whatsappClients st !! userId = None ->
  webhook_send_handler userId (Some to) (Some message) (Some secret) o st
  = (Ok not_connected, st).
Proof.
  intros Hc. rewrite handler_authorized. unfold_m. cbn. rewrite Hc. reflexivity.
Qed.

Lemma handler_dispatch c :
  whatsappClients st !! userId = Some c ->
  let r := webhook_send_handler userId (Some to) (Some message) (Some secret) o st in
  trace r.2 = trace st ++ [ClientSendMessage c (format_chatId to) message]
  /\ status_of r = Some (match o with Some _ => 500 | None => 200 end)%nat.
Proof.
  intros Hc. cbv zeta. rewrite handler_authorized.
  unfold client_sendMessage, insert_log. unfold_m. cbn. rewrite Hc.
  destruct o; cbn; split; reflexivity.
Qed.

End Enabled.

End PublicSendHandler.

(** C3 (as amended). For a request to [POST /webhook/send/:userId] whose
    fields pass validation, [to] and [message] being the trimmed fields:
    when the user has no row or the stored [webhook_enabled] is not true
    the answer is 403 whatever the secret; when it is true and the
    supplied secret differs from the stored one the answer is 401; when it
    is true and the secret matches but the user has no client in the
    registry the answer is 503; in these three cases the server state is
    unchanged, so nothing is dispatched. When it is true, the secret
    matches and a client is registered, exactly one [sendMessage] is made
    on that client, with chatId [to] when [to] contains ['@'] and
    [to + "@c.us"] otherwise, and the answer is 200 (500 when the send
    throws). *)
Theorem public_send_authorization (userId : string) (req : WebhookSendBody)
    (o : option string) (st : Server) :
  webhook_send_errors userId req = [] ->
  let r := post_webhook_send userId req o st in
  let to := Validator.trim (default EmptyString (ws_to req)) in
  let message := Validator.trim (default EmptyString (ws_message req)) in
  (enabled_for st userId = false ->
     status_of r = Some 403%nat /\ r.2 = st)
  /\ (enabled_for st userId = true -> ws_secret req ≠ stored_secret st userId ->
        status_of r = Some 401%nat /\ r.2 = st)
  /\ (enabled_for st userId = true -> ws_secret req = stored_secret st userId ->
        whatsappClients st !! userId = None ->
        status_of r = Some 503%nat /\ r.2 = st)
  /\ (enabled_for st userId = true -> ws_secret req = stored_secret st userId ->
        forall c, whatsappClients st !! userId = Some c ->
        dispatches (trace r.2) =
          dispatches (trace st) ++
          [(c, if Js.includes to "@" then to else (to ++ "@c.us")%string, message)]
        /\ status_of r = Some (match o with Some _ => 500 | None => 200 end)%nat).
Proof.
  intros Hv r to message.
  destruct (webhook_send_valid userId req o st Hv)
    as (to0 & m0 & s0 & Eto & Em & Es & Hto & Hm & Hs & _ & Er).
  subst r to message. rewrite Er, Eto, Em, Es. cbn [default].
  split; [|split; [|split]].
  - intros He. rewrite handler_not_enabled by exact He. split; reflexivity.
  - intros He Hne. rewrite handler_wrong_secret by assumption. split; reflexivity.
  - intros He Heq Hc. rewrite handler_not_connected by assumption. split; reflexivity.
  - intros He Heq c Hc.
    destruct (handler_dispatch userId o st He _ _ s0 Heq Hto Hm c Hc) as [Ht Hst].
    split; [|exact Hst].
    rewrite Ht. unfold dispatches. rewrite omap_app. reflexivity.
Qed.

Lemma public_send_authorization_witness :
  let r := post_webhook_send sample_user (sample_send "s3cret") None (sample_server true true) in
  dispatches (trace r.2) = [(0%nat, "15551234567@c.us", "hello")]
  /\ status_of r = Some 200%nat.
Proof.
  intros r.
  destruct (public_send_authorization sample_user (sample_send "s3cret") None
              (sample_server true true)) as (_ & _ & _ & H).
  - vm_compute. reflexivity.
  - apply (H eq_refl eq_refl 0%nat). vm_compute. reflexivity.
Defined.

(** C3 fails as stated, twice. With the webhook disabled a wrong secret is
    answered 403, not 401. With the webhook enabled and the right secret,
    a user without a registered client is answered 503 and no message is
    dispatched. *)
Lemma public_send_counterexample :
  (ws_secret (sample_send "guess") ≠ stored_secret (sample_server false true) sample_user
   /\ status_of (post_webhook_send sample_user (sample_send "guess") None
                   (sample_server false true)) = Some 403%nat)
  /\ (ws_secret (sample_send "s3cret") = stored_secret (sample_server true false) sample_user
      /\ enabled_for (sample_server true false) sample_user = true
      /\ status_of (post_webhook_send sample_user (sample_send "s3cret") None
                      (sample_server true false)) = Some 503%nat
      /\ dispatches (trace (post_webhook_send sample_user (sample_send "s3cret") None
                             (sample_server true false)).2) = []).
Proof.
  split; [split | split; [|split; [|split]]].
  - vm_compute. discriminate.
  - vm_compute. reflexivity.
  - vm_compute. reflexivity.
  - vm_compute. reflexivity.
  - vm_compute. reflexivity.
  - vm_compute. reflexivity.
Qed.

(** C6 (as amended). On the public send endpoint a refusal depends on
    nothing but the check that failed: every request refused because the
    user has no row or the webhook is not enabled gets one and the same
    403 response, every request refused for its secret gets one and the
    same 401 response, and neither carries anything of the stored
    configuration. The two responses differ from each other, in status
    and in body, so the caller does learn which of the two checks
    failed. *)
Theorem public_send_failure_responses (userId1 userId2 : string) (req1 req2 : WebhookSendBody)
    (o1 o2 : option string) (st1 st2 : Server) :
  webhook_send_errors userId1 req1 = [] ->
  webhook_send_errors userId2 req2 = [] ->
  let r1 := post_webhook_send userId1 req1 o1 st1 in
  let r2 := post_webhook_send userId2 req2 o2 st2 in
  (enabled_for st1 userId1 = false -> enabled_for st2 userId2 = false ->
     r1.1 = Ok {| status := 403;
                  body := JObj [("success", JBool false);
                                ("error", JStr "Webhook not enabled for this user")] |}
     /\ r2.1 = r1.1)
  /\ (enabled_for st1 userId1 = true -> ws_secret req1 ≠ stored_secret st1 userId1 ->
      enabled_for st2 userId2 = true -> ws_secret req2 ≠ stored_secret st2 userId2 ->
        r1.1 = Ok {| status := 401;
                     body := JObj [("success", JBool false);
                                   ("error", JStr "Invalid webhook secret")] |}
        /\ r2.1 = r1.1)
  /\ (enabled_for st1 userId1 = false ->
      enabled_for st2 userId2 = true -> ws_secret req2 ≠ stored_secret st2 userId2 ->
        body <$> response_of r1 ≠ body <$> response_of r2).
Proof.
  intros Hv1 Hv2 r1 r2.
  destruct (webhook_send_valid userId1 req1 o1 st1 Hv1)
    as (t1 & m1 & s1 & _ & _ & Es1 & _ & _ & _ & _ & Er1).
  destruct (webhook_send_valid userId2 req2 o2 st2 Hv2)
    as (t2 & m2 & s2 & _ & _ & Es2 & _ & _ & _ & _ & Er2).
  subst r1 r2. rewrite Er1, Er2, Es1, Es2.
  split; [|split].
  - intros H1 H2. rewrite !handler_not_enabled by assumption. split; reflexivity.
  - intros H1 N1 H2 N2. rewrite !handler_wrong_secret by assumption. split; reflexivity.
  - intros H1 H2 N2. rewrite handler_not_enabled by assumption.
    rewrite handler_wrong_secret by assumption. discriminate.
Qed.

Lemma public_send_failure_responses_witness :
  (post_webhook_send sample_user (sample_send "guess") None empty_server).1 = Ok forbidden
  /\ (post_webhook_send sample_user (sample_send "other") None (sample_server false true)).1
     = (post_webhook_send sample_user (sample_send "guess") None empty_server).1.
Proof.
  destruct (public_send_failure_responses sample_user sample_user
              (sample_send "guess") (sample_send "other") None None
              empty_server (sample_server false true)) as (H & _ & _).
  - vm_compute. reflexivity.
  - vm_compute. reflexivity.
  - apply H; vm_compute; reflexivity.
Defined.

(** C6 fails as stated: the same request with the same wrong secret is
    answered differently, in body as in status, according to whether the
    user's webhook is disabled or enabled. *)
Lemma public_send_failures_distinguishable :
  let r_disabled :=
    post_webhook_send sample_user (sample_send "guess") None (sample_server false true) in
  let r_mismatch :=
    post_webhook_send sample_user (sample_send "guess") None (sample_server true true) in
  response_of r_disabled =
    Some {| status := 403;
            body := JObj [("success", JBool false);
                          ("error", JStr "Webhook not enabled for this user")] |}
  /\ response_of r_mismatch =
       Some {| status := 401;
               body := JObj [("success", JBool false);
                             ("error", JStr "Invalid webhook secret")] |}
  /\ body <$> response_of r_disabled ≠ body <$> response_of r_mismatch.
Proof.
  split; [|split].
  - vm_compute. reflexivity.
  - vm_compute. reflexivity.
  - vm_compute. discriminate.
Qed.

(** ** Webhook configuration *)


Lemma webhook_url_chain_run isURL u :
  Validator.run_chain (webhook_url_chain isURL) u =
  match u with
  | None => (None, [])
  | Some v => (Some (Validator.trim v),
               if isURL (Validator.trim v) then []
               else [Validator.Error "webhook_url" "Invalid webhook URL"])
  end.
Proof. destruct u; reflexivity. Qed.

Lemma webhook_enabled_chain_run b :
  (Validator.run_chain webhook_enabled_chain (bool_toString <$> b)).2 = [].
Proof. destruct b as [[|]|]; reflexivity. Qed.

Lemma webhook_config_handler_ok userId url enabled rng now st :
  exists resp st',
    webhook_config_handler userId url enabled rng now None st = (Ok resp, st')
    /\ status resp = 200%nat
    /\ Json.get "webhook_secret" (body resp) =
         (if default false enabled && Js.truthy_opt url
          then Some (JStr (generated_secret rng)) else None)
    /\ whatsapp_sessions st' !! userId ≫= webhook_secret = Some (generated_secret rng)
    /\ whatsapp_sessions st' !! userId ≫= webhook_enabled = Some (default false enabled)
    /\ (forall u, u ≠ userId -> whatsapp_sessions st' !! u = whatsapp_sessions st !! u)
    /\ whatsappClients st' = whatsappClients st
    /\ trace st' = trace st.
Proof.
  unfold webhook_config_handler, write_sessions. unfold_m. cbn.
  destruct (whatsapp_sessions st !! userId) as [row|] eqn:E; cbn;
    destruct (default false enabled && Js.truthy_opt url) eqn:En; cbn;
    eexists _, _; (split; [reflexivity|]); cbn;
    (split; [reflexivity|]); (split; [reflexivity|]).
  1,2: rewrite lookup_alter_eq, E; cbn; repeat split; try reflexivity;
       intros u Hu; apply lookup_alter_ne; congruence.
  1,2: rewrite lookup_insert_eq; cbn; repeat split; try reflexivity;
       intros u Hu; apply lookup_insert_ne; congruence.
Qed.

Lemma webhook_config_handler_db_error userId url enabled rng now e st :
  webhook_config_handler userId url enabled rng now (Some e) st =
  (Ok (status_json 500 (JObj [("error", JStr "Failed to configure webhook");
                              ("details", JStr e)])), st).
Proof.
  unfold webhook_config_handler, write_sessions. unfold_m. cbn.
  destruct (whatsapp_sessions st !! userId); reflexivity.
Qed.

(** A configuration call that answers 200 passed validation, met no store
    error, and ran the handler on the trimmed URL. *)
Lemma post_webhook_config_success isURL userId req rng now db_error st :
  status_of (post_webhook_config isURL userId req rng now db_error st) = Some 200%nat ->
  db_error = None /\
  post_webhook_config isURL userId req rng now db_error st =
  webhook_config_handler userId (Validator.trim <$> wc_webhook_url req)
    (wc_webhook_enabled req) rng now None st.
Proof.
  unfold post_webhook_config. rewrite webhook_url_chain_run.
  pose proof (webhook_enabled_chain_run (wc_webhook_enabled req)) as He.
  destruct (Validator.run_chain webhook_enabled_chain (bool_toString <$> wc_webhook_enabled req))
    as [b e2]. cbn in He. subst e2.
  destruct (wc_webhook_url req) as [v|]; cbn [fmap option_fmap option_map].
  - destruct (isURL (Validator.trim v)); cbn [app validate].
    + destruct db_error as [e|]; [|intros _; split; reflexivity].
      rewrite webhook_config_handler_db_error. discriminate.
    + discriminate.
  - cbn [app validate].
    destruct db_error as [e|]; [|intros _; split; reflexivity].
    rewrite webhook_config_handler_db_error. discriminate.
Qed.

Lemma get_webhook_config_ok userId protocol host st :
  get_webhook_config userId protocol host None st =
  (Ok (json (JObj
     [("success", JBool true);
      ("webhook_url", Json.of_opt_string (whatsapp_sessions st !! userId ≫= webhook_url));
      ("webhook_enabled",
       JBool (default false (whatsapp_sessions st !! userId ≫= webhook_enabled)));
      ("webhook_secret",
       Json.of_opt_string (whatsapp_sessions st !! userId ≫= webhook_secret));
      ("outgoing_webhook_url",
       JStr ((protocol ++ "://" ++ host) ++ "/webhook/send/" ++ userId)%string)])), st).
Proof. reflexivity. Qed.



(** C2 (the code departs from it). After a configuration call has
    generated a secret, [GET /webhook/config] reads the [webhook_secret]
    column and returns that same secret, in plaintext, in its response;
    and it does so on every later read. *)
Theorem webhook_secret_read_back (isURL : string -> bool) (userId : string)
    (req : WebhookConfigBody) (rng : nat -> byte) (now : string) (db_error : option string)
    (protocol host : string) (st : Server) :
  let r := post_webhook_config isURL userId req rng now db_error st in
  status_of r = Some 200%nat ->
  exists resp,
    get_webhook_config userId protocol host None r.2 = (Ok resp, r.2)
    /\ status resp = 200%nat
    /\ Json.get "webhook_secret" (body resp) = Some (JStr (toString_hex (randomBytes rng 32))).
Proof.
  intros r Hok. subst r.
  destruct (post_webhook_config_success _ _ _ _ _ _ _ Hok) as [-> E].
  rewrite E. clear E Hok.
  destruct (webhook_config_handler_ok userId (Validator.trim <$> wc_webhook_url req)
              (wc_webhook_enabled req) rng now st)
    as (resp & st' & E & _ & _ & Hsec & _).
  rewrite E. cbn [snd]. rewrite get_webhook_config_ok.
  eexists. split; [reflexivity|]. split; [reflexivity|].
  cbn. rewrite Hsec. reflexivity.
Qed.

Lemma webhook_secret_read_back_witness :
  let r := post_webhook_config any_url sample_user (sample_config true) sample_rng
             "2026-01-01T00:00:00.000Z" None empty_server in
  (response_of r ≫= fun resp => Json.get "webhook_secret" (body resp))
    = Some (JStr "abababababababababababababababababababababababababababababababab")
  /\ exists resp,
       get_webhook_config sample_user "https" "relay.test" None r.2 = (Ok resp, r.2)
       /\ Json.get "webhook_secret" (body resp) = Some (JStr "abababababababababababababababababababababababababababababababab").
Proof.
  intros r. split; [vm_compute; reflexivity|].
  destruct (webhook_secret_read_back any_url sample_user (sample_config true) sample_rng
              "2026-01-01T00:00:00.000Z" None "https" "relay.test" empty_server)
    as (resp & Hg & _ & Hs).
  - vm_compute. reflexivity.
  - exists resp. split; [exact Hg | exact Hs].
Defined.
